(** * Analytics Platform Query Service: the batch/speed reconciliation layer

    A shallow embedding of [14-analytics-platform/serving/query.py].

    - Instants ([datetime]) are integers: microseconds on the naive
      time line, counted from the Unix epoch.  [datetime]'s finite window
      (years 1 to 9999) is not modelled.
    - The two store clients are read-only black boxes.  Every call made on
      them is recorded in a call log, so that statements about which
      queries are issued can be made.  The stores do not change while one
      query method runs, and every call is answered: failures of the
      stores themselves are not modelled.
    - [float] values are IEEE 754 binary64 numbers, computed with the
      Standard Library's executable specification of floating-point
      arithmetic: every operation rounds as Python's does. *)

From Stdlib Require Import ZArith List Sorted Lia.
From Stdlib Require Import DecimalString SpecFloat.
From stdpp Require Import gmap strings.

Open Scope string_scope.
Open Scope list_scope.
Open Scope Z_scope.

(* ===================================================================== *)
(** ** Time *)
(* ===================================================================== *)

Definition datetime := Z.
Definition date := Z.

Definition SECOND : Z := 1000000.
Definition MINUTE : Z := 60 * SECOND.
Definition HOUR : Z := 60 * MINUTE.
Definition DAY : Z := 24 * HOUR.

(** [t.replace(minute=0, second=0, microsecond=0)] *)
Definition replace_minute0_second0_microsecond0 (t : datetime) : datetime :=
  t - t mod HOUR.

(** [t.date()], as a day number *)
Definition date_of (t : datetime) : date := t / DAY.

(** [int(t.timestamp())], the process time zone being UTC: whole Unix
    seconds, fraction cut off towards zero.  (In a zone whose clock
    changes, [timestamp()] maps two local instants to one.) *)
Definition int_timestamp (t : datetime) : Z := Z.quot t SECOND.

(** [str(n)] for an integer *)
Definition str_of_int (n : Z) : string := NilZero.string_of_int (Z.to_int n).

(** [f"order_count:{int(current.timestamp())}"] *)
Definition order_count_key (current : datetime) : string :=
  String.append "order_count:" (str_of_int (int_timestamp current)).

(* ===================================================================== *)
(** ** Numbers *)
(* ===================================================================== *)

(** Python's [float] is IEEE 754 binary64: 53 bits of precision, rounding
    to nearest with ties to even. *)
Definition prec : Z := 53.
Definition emax : Z := 1024.

Definition pyfloat : Type := spec_float.

Inductive pynum : Type :=
| PyInt (n : Z)
| PyFloat (x : pyfloat).

(** [x + y] on two floats *)
Definition fadd (x y : pyfloat) : pyfloat := SFadd prec emax x y.

(** [float(n)]: the integer rounded to the nearest float *)
Definition float_of_int (n : Z) : pyfloat := binary_normalize prec emax n 0 false.

(** An integer as an operand that is not rounded *)
Definition exact_int (n : Z) : pyfloat :=
  match n with
  | Z0 => S754_zero false
  | Zpos p => S754_finite false p 0
  | Zneg p => S754_finite true p 0
  end.

(** [a / d] on two integers, [d] not zero: the quotient of the integers
    themselves, rounded once.  Where Python raises [OverflowError], for a
    quotient of 2^1024 or more, this is an infinity; no count that the
    stores return is that large. *)
Definition int_truediv (a d : Z) : pyfloat :=
  SFdiv prec emax (exact_int a) (exact_int d).

(** [x + y] *)
Definition py_add (x y : pynum) : pynum :=
  match x, y with
  | PyInt a, PyInt b => PyInt (a + b)
  | PyInt a, PyFloat g => PyFloat (fadd (float_of_int a) g)
  | PyFloat f, PyInt b => PyFloat (fadd f (float_of_int b))
  | PyFloat f, PyFloat g => PyFloat (fadd f g)
  end.

(** [x / d] and [x * k] on a float and an integer: the integer is
    converted with [float] first *)
Definition fdiv_int (x : pyfloat) (d : Z) : pyfloat :=
  SFdiv prec emax x (float_of_int d).

Definition fmul_int (x : pyfloat) (k : Z) : pyfloat :=
  SFmul prec emax x (float_of_int k).

(* ===================================================================== *)
(** ** Effects: exceptions and the log of store calls *)
(* ===================================================================== *)

Inductive exn : Type :=
| ValueError
| IndexError
| ZeroDivisionError.

(** Calls made on the two store clients.  Each ClickHouse query template
    of the source has its own constructor, carrying the parameters bound
    to it. *)
Inductive call : Type :=
| Execute_orders_by_minute (start end_ : datetime)
| Execute_bucket_count (start end_ : datetime)
| Execute_daily_sales (start_date end_date : date)
| Execute_realtime (start_time : datetime)
| Execute_funnel (start_date end_date : date)
| Redis_get (key : string).

(** [NoFuel] is not a Python outcome: a loop of the model ran out of
    steps.  The theorems show that it never occurs. *)
Inductive outcome (A : Type) : Type :=
| Ok (a : A)
| Raise (e : exn)
| NoFuel.

Arguments Ok {A} a.
Arguments Raise {A} e.
Arguments NoFuel {A}.

Definition M (A : Type) : Type := list call -> outcome A * list call.

Definition ret {A} (a : A) : M A := fun log => (Ok a, log).

Definition raise {A} (e : exn) : M A := fun log => (Raise e, log).

Definition bind {A B} (m : M A) (f : A -> M B) : M B :=
  fun log =>
    match m log with
    | (Ok a, log') => f a log'
    | (Raise e, log') => (Raise e, log')
    | (NoFuel, log') => (NoFuel, log')
    end.

Definition emit (c : call) : M unit := fun log => (Ok tt, log ++ [c]).

Notation "'let*' x ':=' m 'in' k" := (bind m (fun x => k))
  (at level 10, x name, m at level 100, k at level 200).

(* ===================================================================== *)
(** ** The store clients *)
(* ===================================================================== *)

Record daily_sales_row : Type := {
  ds_category : string;
  ds_order_date : date;
  ds_daily_sales : pyfloat;
  ds_order_count : Z;
  ds_avg_order_value : pyfloat
}.

(** What [Client.execute] answers, per query template.  A row has the
    arity and the column types of the template's select list. *)
Record Client : Type := {
  orders_by_minute : datetime -> datetime -> list (datetime * Z);
  bucket_count : datetime -> datetime -> list Z;
  daily_sales : date -> date -> list daily_sales_row;
  realtime : datetime -> list (datetime * Z * pyfloat);
  funnel : date -> date -> list (Z * Z * Z)
}.

(** [self]: the ClickHouse client and the Redis contents seen through
    [redis.Redis(..., decode_responses=True)] *)
Record AnalyticsService : Type := {
  clickhouse : Client;
  redis : gmap string string
}.

Definition execute_orders_by_minute (self : AnalyticsService) (s e : datetime)
  : M (list (datetime * Z)) :=
  let* _ := emit (Execute_orders_by_minute s e) in ret (orders_by_minute (clickhouse self) s e).

Definition execute_bucket_count (self : AnalyticsService) (s e : datetime)
  : M (list Z) :=
  let* _ := emit (Execute_bucket_count s e) in ret (bucket_count (clickhouse self) s e).

Definition execute_daily_sales (self : AnalyticsService) (s e : date)
  : M (list daily_sales_row) :=
  let* _ := emit (Execute_daily_sales s e) in ret (daily_sales (clickhouse self) s e).

Definition execute_realtime (self : AnalyticsService) (s : datetime)
  : M (list (datetime * Z * pyfloat)) :=
  let* _ := emit (Execute_realtime s) in ret (realtime (clickhouse self) s).

Definition execute_funnel (self : AnalyticsService) (s e : date)
  : M (list (Z * Z * Z)) :=
  let* _ := emit (Execute_funnel s e) in ret (funnel (clickhouse self) s e).

Definition redis_get (self : AnalyticsService) (key : string) : M (option string) :=
  let* _ := emit (Redis_get key) in ret (redis self !! key).

(* ===================================================================== *)
(** ** get_order_count_by_minute *)
(* ===================================================================== *)

(** [while batch_latest < end_time: batch_latest += timedelta(hours=1)] *)
Fixpoint advance_batch_latest (fuel : nat) (batch_latest end_time : datetime)
  : option datetime :=
  if batch_latest <? end_time then
    match fuel with
    | O => None
    | S fuel' => advance_batch_latest fuel' (batch_latest + HOUR) end_time
    end
  else Some batch_latest.

Definition hours_fuel (start_time end_time : datetime) : nat :=
  Z.to_nat ((end_time - replace_minute0_second0_microsecond0 start_time) / HOUR + 1).

(** Step 1 of the method: the cutover between the two layers *)
Definition batch_latest (start_time end_time : datetime) : option datetime :=
  match advance_batch_latest (hours_fuel start_time end_time)
          (replace_minute0_second0_microsecond0 start_time) end_time with
  | Some b => Some (b - HOUR)
  | None => None
  end.

Definition lift_loop {A} (o : option A) : M A :=
  fun log => match o with Some a => (Ok a, log) | None => (NoFuel, log) end.

Section Service.

(** [int(s)] on a string: [None] stands for [ValueError] *)
Variable py_int : string -> option Z.

(** The body of the speed-layer loop, for the bucket [current] *)
Definition speed_bucket (self : AnalyticsService) (current : datetime)
    (results : list (datetime * Z)) : M (list (datetime * Z)) :=
  let* count := redis_get self (order_count_key current) in
  match count with
  | Some (String _ _ as s) =>
      match py_int s with
      | Some n => ret (results ++ [(current, n)])
      | None => raise ValueError
      end
  | _ =>
      let* fallback_result := execute_bucket_count self current (current + MINUTE) in
      match fallback_result with
      | row :: _ => ret (results ++ [(current, row)])
      | [] => ret results
      end
  end.

(** [while current < end_time: ...; current += timedelta(minutes=1)] *)
Fixpoint speed_loop (fuel : nat) (self : AnalyticsService)
    (current end_time : datetime) (results : list (datetime * Z))
  : M (list (datetime * Z)) :=
  if current <? end_time then
    match fuel with
    | O => fun log => (NoFuel, log)
    | S fuel' =>
        let* results' := speed_bucket self current results in
        speed_loop fuel' self (current + MINUTE) end_time results'
    end
  else ret results.

Definition minutes_fuel (current end_time : datetime) : nat :=
  Z.to_nat ((end_time - current) / MINUTE + 1).

(** Step 2: the batch layer *)
Definition batch_layer (self : AnalyticsService) (start_time end_time cutover : datetime)
    (results : list (datetime * Z)) : M (list (datetime * Z)) :=
  if start_time <? cutover then
    let* batch_results := execute_orders_by_minute self start_time (Z.min end_time cutover) in
    ret (results ++ batch_results)
  else ret results.

(** Step 3: the speed layer *)
Definition speed_layer (self : AnalyticsService) (end_time cutover : datetime)
    (results : list (datetime * Z)) : M (list (datetime * Z)) :=
  if end_time >? cutover then
    speed_loop (minutes_fuel cutover end_time) self cutover end_time results
  else ret results.

Definition get_order_count_by_minute (self : AnalyticsService)
    (start_time end_time : datetime) : M (list (datetime * Z)) :=
  let* cutover := lift_loop (batch_latest start_time end_time) in
  let* results := batch_layer self start_time end_time cutover [] in
  let* results := speed_layer self end_time cutover results in
  ret results.

End Service.

(* ===================================================================== *)
(** ** The aggregate queries *)
(* ===================================================================== *)

(** [float(x)] on a numeric column of a row *)
Definition py_float (x : pyfloat) : pyfloat := x.

(** [x / d] with an integer [d]: true division *)
Definition py_truediv (x : pynum) (d : Z) : M pynum :=
  if d =? 0 then raise ZeroDivisionError
  else ret (PyFloat (match x with
                     | PyInt a => int_truediv a d
                     | PyFloat f => fdiv_int f d
                     end)).

(** [x * k] with an integer [k] *)
Definition py_mul (x : pynum) (k : Z) : pynum :=
  match x with
  | PyInt a => PyInt (a * k)
  | PyFloat f => PyFloat (fmul_int f k)
  end.

(** [sum(...)] over integers and over numbers: both start from the integer 0 *)
Definition sum_int (l : list Z) : Z := fold_left Z.add l 0.
Definition sum_num (l : list pynum) : pynum := fold_left py_add l (PyInt 0).

Module DailySales.
Record item : Type := {
  category : string;
  order_date : string;
  daily_sales : pyfloat;
  order_count : Z;
  avg_order_value : pyfloat
}.
End DailySales.

Module Realtime.
Record minute_item : Type := {
  minute : string;
  count : Z;
  revenue : pyfloat
}.
Record metrics : Type := {
  last_5min_orders : Z;
  last_5min_revenue : pynum;
  avg_order_value : pynum;
  orders_per_minute : list minute_item
}.
End Realtime.

Module Funnel.
Record result : Type := {
  page_views : Z;
  add_to_carts : Z;
  purchases : Z;
  view_to_cart_rate : pynum;
  cart_to_purchase_rate : pynum;
  overall_conversion_rate : pynum
}.
End Funnel.

Section Aggregates.

(** [d.isoformat()] on a date and on a datetime *)
Variable date_isoformat : date -> string.
Variable datetime_isoformat : datetime -> string.

Definition get_daily_sales_by_category (self : AnalyticsService)
    (start_date end_date : datetime) : M (list DailySales.item) :=
  let* results := execute_daily_sales self (date_of start_date) (date_of end_date) in
  ret (map (fun row =>
              {| DailySales.category := ds_category row;
                 DailySales.order_date := date_isoformat (ds_order_date row);
                 DailySales.daily_sales := py_float (ds_daily_sales row);
                 DailySales.order_count := ds_order_count row;
                 DailySales.avg_order_value := py_float (ds_avg_order_value row) |})
           results).

(** [now] is what [datetime.now()] returns *)
Definition get_realtime_metrics (self : AnalyticsService) (now : datetime)
  : M Realtime.metrics :=
  let five_min_ago := now - 5 * MINUTE in
  let* results := execute_realtime self five_min_ago in
  let total_orders := sum_int (map (fun row => snd (fst row)) results) in
  let total_revenue := sum_num (map (fun row => PyFloat (py_float (snd row))) results) in
  let* avg :=
    (if total_orders >? 0 then py_truediv total_revenue total_orders
     else ret (PyInt 0)) in
  ret {| Realtime.last_5min_orders := total_orders;
         Realtime.last_5min_revenue := total_revenue;
         Realtime.avg_order_value := avg;
         Realtime.orders_per_minute :=
           map (fun row =>
                  {| Realtime.minute := datetime_isoformat (fst (fst row));
                     Realtime.count := snd (fst row);
                     Realtime.revenue := py_float (snd row) |})
               results |}.

End Aggregates.

(** The percentage [(num / den * 100) if den > 0 else 0] *)
Definition rate (num den : Z) : M pynum :=
  if den >? 0 then
    let* q := py_truediv (PyInt num) den in
    ret (py_mul q 100)
  else ret (PyInt 0).

Definition get_conversion_funnel (self : AnalyticsService)
    (start_date end_date : datetime) : M Funnel.result :=
  let* rows := execute_funnel self (date_of start_date) (date_of end_date) in
  let* result :=
    (match rows with
     | row :: _ => ret row
     | [] => raise IndexError
     end) in
  let '(page_views, add_to_carts, purchases) := result in
  let* view_to_cart_rate := rate add_to_carts page_views in
  let* cart_to_purchase_rate := rate purchases add_to_carts in
  let* overall_conversion_rate := rate purchases page_views in
  ret {| Funnel.page_views := page_views;
         Funnel.add_to_carts := add_to_carts;
         Funnel.purchases := purchases;
         Funnel.view_to_cart_rate := view_to_cart_rate;
         Funnel.cart_to_purchase_rate := cart_to_purchase_rate;
         Funnel.overall_conversion_rate := overall_conversion_rate |}.

(* ===================================================================== *)
(** ** Vocabulary of the specification *)
(* ===================================================================== *)

(** An instant on a boundary of the batch layer's refresh cadence *)
Definition aligned (cadence t : Z) : Prop := t mod cadence = 0.

(** The cutover the Boundary Resolver is specified to return: the latest
    cadence-aligned instant that is [<= queryEnd], and [< queryEnd] when
    [queryEnd] is itself aligned. *)
Definition admissible_cutover (cadence queryEnd c : Z) : Prop :=
  aligned cadence c /\ c <= queryEnd /\ (aligned cadence queryEnd -> c < queryEnd).

Definition resolved_cutover (cadence queryEnd c : Z) : Prop :=
  admissible_cutover cadence queryEnd c /\
  forall c', admissible_cutover cadence queryEnd c' -> c' <= c.

(** The one-minute buckets [current, current + 1min, ...] below [end_time],
    in ascending order *)
Definition buckets (current end_time : datetime) : list datetime :=
  map (fun k => current + Z.of_nat k * MINUTE)
      (seq 0 (Z.to_nat ((end_time - current + MINUTE - 1) / MINUTE))).

(** The speed store has no value for the bucket: [None] or the empty
    string, the two values on which [if count:] fails *)
Definition speed_miss (self : AnalyticsService) (t : datetime) : bool :=
  match redis self !! order_count_key t with
  | Some (String _ _) => false
  | _ => true
  end.

Section PerBucket.

Variable py_int : string -> option Z.

(** The value held for the bucket, if any, is an integer literal *)
Definition bucket_readable (self : AnalyticsService) (t : datetime) : bool :=
  match redis self !! order_count_key t with
  | Some (String _ _ as s) => match py_int s with Some _ => true | None => false end
  | _ => true
  end.

(** The store calls one pass of the loop body makes for bucket [t] *)
Definition bucket_calls (self : AnalyticsService) (t : datetime) : list call :=
  Redis_get (order_count_key t) ::
  (if speed_miss self t then [Execute_bucket_count t (t + MINUTE)] else []).

(** The points one pass of the loop body contributes for bucket [t] *)
Definition bucket_points (self : AnalyticsService) (t : datetime)
  : list (datetime * Z) :=
  match redis self !! order_count_key t with
  | Some (String _ _ as s) =>
      match py_int s with Some n => [(t, n)] | None => [] end
  | _ =>
      match bucket_count (clickhouse self) t (t + MINUTE) with
      | row :: _ => [(t, row)]
      | [] => []
      end
  end.

(** The loop of the speed layer, as a traversal of the bucket list *)
Fixpoint speed_fold (self : AnalyticsService) (bs : list datetime)
    (results : list (datetime * Z)) : M (list (datetime * Z)) :=
  match bs with
  | [] => ret results
  | t :: bs' =>
      let* results' := speed_bucket py_int self t results in
      speed_fold self bs' results'
  end.

(** What the batch layer reads, and the call it makes *)
Definition batch_points (self : AnalyticsService) (start_time end_time c : datetime)
  : list (datetime * Z) :=
  if start_time <? c
  then orders_by_minute (clickhouse self) start_time (Z.min end_time c)
  else [].

Definition batch_calls (start_time end_time c : datetime) : list call :=
  if start_time <? c
  then [Execute_orders_by_minute start_time (Z.min end_time c)]
  else [].

Definition speed_points (self : AnalyticsService) (end_time c : datetime)
  : list (datetime * Z) :=
  flat_map (bucket_points self) (buckets c end_time).

Definition speed_calls (self : AnalyticsService) (end_time c : datetime) : list call :=
  flat_map (bucket_calls self) (buckets c end_time).

End PerBucket.

Definition timestamps (points : list (datetime * Z)) : list datetime := map fst points.

(** The contract of the batch store for the grouped per-minute query, one
    clause of the template at a time: [WHERE created_at < end] keeps every
    group's minute below [end]; [GROUP BY minute] returns each minute
    once; [ORDER BY minute] returns the rows in ascending order. *)
Definition honours_where (ch : Client) : Prop :=
  forall s e, Forall (fun m => m < e) (timestamps (orders_by_minute ch s e)).

Definition honours_group_by (ch : Client) : Prop :=
  forall s e, List.NoDup (timestamps (orders_by_minute ch s e)).

Definition honours_order_by (ch : Client) : Prop :=
  forall s e, StronglySorted Z.le (timestamps (orders_by_minute ch s e)).

(** The call occurs exactly once in the log *)
Definition issued_once (c : call) (log : list call) : Prop :=
  exists before after, log = before ++ c :: after /\ ~ In c before /\ ~ In c after.

(** The point a fallback answer gives the bucket [t]: none without rows *)
Definition fallback_point (t : datetime) (rows : list Z) : list (datetime * Z) :=
  match rows with
  | row :: _ => [(t, row)]
  | [] => []
  end.

(** A float that is not NaN and whose sign bit is [s] *)
Definition signed (s : bool) (x : pyfloat) : Prop :=
  match x with
  | S754_zero s' | S754_infinity s' | S754_finite s' _ _ => s' = s
  | S754_nan => False
  end.

(** [0 <= x] on a float; false on NaN *)
Definition float_nonneg (x : pyfloat) : Prop := SFleb (float_of_int 0) x = true.

(** A number within the percentage interval [0, 100] *)
Definition is_percentage (x : pynum) : Prop :=
  match x with
  | PyInt n => 0 <= n <= 100
  | PyFloat f => float_nonneg f /\ SFleb f (float_of_int 100) = true
  end.

Definition is_zero (x : pynum) : Prop := x = PyInt 0.

(** The value of [(num / den * 100) if den > 0 else 0] *)
Definition rate_value (num den : Z) : pynum :=
  if den >? 0
  then PyFloat (fmul_int (int_truediv num den) 100)
  else PyInt 0.

(** [x] is the guarded ratio of [num] in [den]: the integer 0 on a zero
    denominator, else the float [num / den * 100], which is neither
    negative nor NaN *)
Definition guarded_percentage (num den : Z) (x : pynum) : Prop :=
  (den = 0 -> is_zero x) /\
  (0 < den ->
   exists f, x = PyFloat f /\
             f = fmul_int (int_truediv num den) 100 /\
             float_nonneg f).

(* ===================================================================== *)
(** ** Concrete services used in the examples *)
(* ===================================================================== *)

(** [int(s)] restricted to plain decimal literals *)
Definition int_of_decimal (s : string) : option Z :=
  option_map Z.of_int (NilZero.int_of_string s).

(** The day 2025-01-15, and a wall-clock time on it *)
Definition day_2025_01_15 : date := 20103.

Definition on_day (d : date) (h m : Z) : datetime := d * DAY + h * HOUR + m * MINUTE.

Definition at_ (h m : Z) : datetime := on_day day_2025_01_15 h m.

Definition no_rows : Client :=
  {| orders_by_minute := fun _ _ => [];
     bucket_count := fun _ _ => [];
     daily_sales := fun _ _ => [];
     realtime := fun _ => [];
     funnel := fun _ _ => [] |}.

(** Two stores without any data *)
Definition empty_stores : AnalyticsService :=
  {| clickhouse := no_rows; redis := ∅ |}.

(** Scenario B: the speed store holds 14:00..14:04 except 14:02, and the
    batch store counts 7 orders in [14:02, 14:03) *)
Definition scenario_b : AnalyticsService :=
  {| clickhouse :=
       {| orders_by_minute := fun _ _ => [];
          bucket_count := fun s e =>
            if (s =? at_ 14 2) && (e =? at_ 14 3) then [7] else [];
          daily_sales := fun _ _ => [];
          realtime := fun _ => [];
          funnel := fun _ _ => [] |};
     redis :=
       list_to_map [ (order_count_key (at_ 14 0), "3");
                     (order_count_key (at_ 14 1), "4");
                     (order_count_key (at_ 14 3), "6");
                     (order_count_key (at_ 14 4), "2") ] |}.

(** A batch store that answers the grouped per-minute query from a table
    of per-minute counts, kept in ascending order of the minute: a group
    is returned when some instant of its minute lies in [start, end). *)
Definition per_minute_counts : list (datetime * Z) :=
  [ (at_ 13 30, 2); (at_ 13 45, 5); (at_ 13 59, 1); (at_ 14 1, 4) ].

Definition select_minutes (table : list (datetime * Z)) (s e : datetime)
  : list (datetime * Z) :=
  List.filter (fun row => (s - MINUTE <? fst row) && (fst row <? e)) table.

Definition two_layers : AnalyticsService :=
  {| clickhouse :=
       {| orders_by_minute := select_minutes per_minute_counts;
          bucket_count := fun s e =>
            if (s =? at_ 14 2) && (e =? at_ 14 3) then [7] else [];
          daily_sales := fun _ _ => [];
          realtime := fun _ => [];
          funnel := fun _ _ => [] |};
     redis := redis scenario_b |}.

(** A clickstream with more add-to-cart events than page views *)
Definition busy_carts : AnalyticsService :=
  {| clickhouse :=
       {| orders_by_minute := fun _ _ => [];
          bucket_count := fun _ _ => [];
          daily_sales := fun _ _ => [];
          realtime := fun _ => [];
          funnel := fun _ _ => [(100, 250, 40)] |};
     redis := ∅ |}.

(* ===================================================================== *)
(** ** Reading the call log *)
(* ===================================================================== *)

(** The keys looked up in the speed store, in the order of the calls *)
Definition redis_keys (log : list call) : list string :=
  flat_map (fun c => match c with Redis_get key => [key] | _ => [] end) log.

(** The windows of the single-bucket fallback queries, in call order *)
Definition fallback_windows (log : list call) : list (datetime * datetime) :=
  flat_map (fun c => match c with Execute_bucket_count s e => [(s, e)] | _ => [] end) log.

(** An instant on a whole minute *)
Definition whole_minute (t : datetime) : Prop := t mod MINUTE = 0.

(** The speed store holds a value for 14:01 that is no integer literal. *)
Definition garbled : AnalyticsService :=
  {| clickhouse := no_rows;
     redis :=
       list_to_map [ (order_count_key (at_ 14 0), "3");
                     (order_count_key (at_ 14 1), "n/a");
                     (order_count_key (at_ 14 2), "5") ] |}.

(** A batch store whose single-bucket count always answers one row, as an
    aggregate without [GROUP BY] does *)
Definition counting : AnalyticsService :=
  {| clickhouse :=
       {| orders_by_minute := select_minutes per_minute_counts;
          bucket_count := fun s e => if s =? at_ 14 2 then [7] else [0];
          daily_sales := fun _ _ => [];
          realtime := fun _ => [];
          funnel := fun _ _ => [] |};
     redis := redis scenario_b |}.

(** Closed goals about wall-clock constants *)
Ltac clock := vm_compute; first [reflexivity | congruence | discriminate | intro; discriminate].

(* ===================================================================== *)
(** ** The cutover *)
(* ===================================================================== *)

Lemma HOUR_pos : 0 < HOUR.
Proof. reflexivity. Qed.

Lemma MINUTE_pos : 0 < MINUTE.
Proof. reflexivity. Qed.

Lemma aligned_hour_floor (t : datetime) :
  aligned HOUR (replace_minute0_second0_microsecond0 t).
Proof.
  unfold aligned, replace_minute0_second0_microsecond0.
  rewrite Zminus_mod_idemp_r, Z.sub_diag. reflexivity.
Qed.

Lemma aligned_shift (t k : Z) :
  aligned HOUR t -> aligned HOUR (t + k * HOUR).
Proof.
  unfold aligned. intros H. rewrite Z.mod_add by (pose proof HOUR_pos; lia). exact H.
Qed.

(** Two distinct hour boundaries are at least an hour apart. *)
Lemma aligned_gap (a b : Z) :
  aligned HOUR a -> aligned HOUR b -> a < b -> a + HOUR <= b.
Proof.
  unfold aligned. intros Ha Hb Hlt.
  pose proof (Z.div_mod a HOUR) as Da. pose proof (Z.div_mod b HOUR) as Db.
  pose proof HOUR_pos.
  rewrite Ha in Da. rewrite Hb in Db.
  assert (a / HOUR < b / HOUR) by nia.
  nia.
Qed.

(** The hour-stepping loop stops, on the first boundary at or after
    [end_time], as soon as it has one step per hour to cover. *)
Lemma advance_batch_latest_spec (fuel : nat) :
  forall b e,
    e - b <= Z.of_nat fuel * HOUR ->
    exists r,
      advance_batch_latest fuel b e = Some r /\
      e <= r /\
      (b < e -> r - HOUR < e) /\
      (e <= b -> r = b) /\
      exists k, 0 <= k /\ r = b + k * HOUR.
Proof.
  induction fuel as [|fuel IH]; intros b e Hfuel; simpl.
  - destruct (Z.ltb_spec b e) as [Hlt|Hge]; [lia|].
    exists b. repeat split; try lia. exists 0. lia.
  - destruct (Z.ltb_spec b e) as [Hlt|Hge].
    + destruct (IH (b + HOUR) e) as (r & Hr & Hle & Hstep & Hstay & k & Hk & Hrk).
      { pose proof HOUR_pos. lia. }
      exists r. split; [exact Hr|]. split; [exact Hle|].
      split; [|split; [lia|]].
      * intros _. destruct (Z_lt_le_dec (b + HOUR) e) as [Hmore|Hdone].
        -- apply Hstep. exact Hmore.
        -- rewrite (Hstay Hdone). lia.
      * exists (k + 1). lia.
    + exists b. repeat split; try lia. exists 0. lia.
Qed.

Lemma hours_fuel_enough (start_time end_time : datetime) :
  end_time - replace_minute0_second0_microsecond0 start_time
  <= Z.of_nat (hours_fuel start_time end_time) * HOUR.
Proof.
  unfold hours_fuel.
  set (d := end_time - replace_minute0_second0_microsecond0 start_time).
  pose proof HOUR_pos as Hp.
  destruct (Z_le_gt_dec d 0) as [Hneg|Hpos]; [lia|].
  pose proof (Z.div_mod d HOUR ltac:(lia)) as Hd.
  pose proof (Z.mod_pos_bound d HOUR Hp) as Hm.
  assert (0 <= d / HOUR) by (apply Z.div_pos; lia).
  rewrite Z2Nat.id by lia. nia.
Qed.

(** The cutover is always computed, and it is an hour boundary. *)
Lemma batch_latest_total (start_time end_time : datetime) :
  exists c, batch_latest start_time end_time = Some c /\ aligned HOUR c.
Proof.
  unfold batch_latest.
  destruct (advance_batch_latest_spec _ _ _ (hours_fuel_enough start_time end_time))
    as (r & Hr & _ & _ & _ & k & _ & Hk).
  rewrite Hr. exists (r - HOUR). split; [reflexivity|].
  replace (r - HOUR) with (replace_minute0_second0_microsecond0 start_time + (k - 1) * HOUR) by lia.
  apply aligned_shift, aligned_hour_floor.
Qed.

(** On a range with [start_time <= end_time] the cutover is the hour
    boundary of the hour that ends at or after [end_time]. *)
Lemma batch_latest_window (start_time end_time : datetime) :
  start_time <= end_time ->
  exists c, batch_latest start_time end_time = Some c /\
            aligned HOUR c /\ c < end_time /\ end_time <= c + HOUR.
Proof.
  intros Hrange.
  destruct (batch_latest_total start_time end_time) as (c & Hc & Hal).
  exists c. split; [exact Hc|]. split; [exact Hal|].
  unfold batch_latest in Hc.
  destruct (advance_batch_latest_spec _ _ _ (hours_fuel_enough start_time end_time))
    as (r & Hr & Hle & Hstep & Hstay & _).
  rewrite Hr in Hc. injection Hc as <-.
  pose proof HOUR_pos.
  assert (Hfloor : replace_minute0_second0_microsecond0 start_time <= start_time).
  { unfold replace_minute0_second0_microsecond0.
    pose proof (Z.mod_pos_bound start_time HOUR HOUR_pos). lia. }
  destruct (Z_lt_le_dec (replace_minute0_second0_microsecond0 start_time) end_time)
    as [Hlt|Hge].
  - specialize (Hstep Hlt). lia.
  - specialize (Hstay Hge). lia.
Qed.

Lemma window_is_resolved (end_time c : datetime) :
  aligned HOUR c -> c < end_time -> end_time <= c + HOUR ->
  resolved_cutover HOUR end_time c.
Proof.
  intros Hal Hlt Hle. split.
  - split; [exact Hal|]. split; lia.
  - intros c' (Hal' & Hle' & Hstrict).
    destruct (Z_le_gt_dec c' c) as [|Hgt]; [assumption|].
    pose proof (aligned_gap c c' Hal Hal' ltac:(lia)) as Hgap.
    assert (c' = end_time) by lia. subst c'.
    specialize (Hstrict Hal'). lia.
Qed.

(** C1 (amended).  The cadence is the constant one hour.  For every range
    with [start_time <= end_time], the cutover computed by
    [get_order_count_by_minute] is the latest hour-aligned instant that is
    [<= end_time], and [< end_time] when [end_time] is itself on the hour;
    in particular it is [<= end_time]. *)
Theorem cutover_is_latest_hour_boundary (start_time end_time : datetime) :
  start_time <= end_time ->
  exists c, batch_latest start_time end_time = Some c /\
            resolved_cutover HOUR end_time c /\
            c <= end_time.
Proof.
  intros Hrange.
  destruct (batch_latest_window start_time end_time Hrange) as (c & Hc & Hal & Hlt & Hle).
  exists c. split; [exact Hc|]. split; [|lia].
  apply window_is_resolved; assumption.
Qed.

Lemma cutover_is_latest_hour_boundary_witness :
  at_ 13 0 <= at_ 14 30 /\
  exists c, batch_latest (at_ 13 0) (at_ 14 30) = Some c /\
            resolved_cutover HOUR (at_ 14 30) c /\
            c <= at_ 14 30.
Proof.
  split.
  - clock.
  - apply (cutover_is_latest_hour_boundary (at_ 13 0) (at_ 14 30)). clock.
Defined.

(** C1 as stated fails.  With a cadence of 30 minutes the range
    14:00-14:45 gets the cutover 14:00, although 14:30 is a later
    admissible boundary; and when [start_time] lies after [end_time]
    (15:30 and 13:10) the cutover, 14:00, is beyond [end_time]. *)
Lemma cutover_ignores_cadence_and_reversed_range :
  (exists c, batch_latest (at_ 14 0) (at_ 14 45) = Some c /\
             ~ resolved_cutover (30 * MINUTE) (at_ 14 45) c) /\
  (exists c, batch_latest (at_ 15 30) (at_ 13 10) = Some c /\
             ~ c <= at_ 13 10).
Proof.
  split.
  - exists (at_ 14 0). split; [clock|].
    intros [_ Hmax].
    assert (Hadm : admissible_cutover (30 * MINUTE) (at_ 14 45) (at_ 14 30)).
    { split; [clock|]. split; [clock|]. intros Habs. vm_compute in Habs. discriminate. }
    specialize (Hmax _ Hadm). vm_compute in Hmax. apply Hmax. reflexivity.
  - exists (at_ 14 0). split; [clock|].
    intros Habs. vm_compute in Habs. apply Habs. reflexivity.
Qed.

(* ===================================================================== *)
(** ** The bucket list *)
(* ===================================================================== *)

Lemma buckets_done (current end_time : datetime) :
  end_time <= current -> buckets current end_time = [].
Proof.
  intros Hge. unfold buckets.
  replace (Z.to_nat ((end_time - current + MINUTE - 1) / MINUTE)) with O; [reflexivity|].
  pose proof MINUTE_pos as Hp.
  assert ((end_time - current + MINUTE - 1) / MINUTE <= 0); [|lia].
  assert ((end_time - current + MINUTE - 1) / MINUTE < 1); [|lia].
  apply Z.div_lt_upper_bound; lia.
Qed.

Lemma buckets_step (current end_time : datetime) :
  current < end_time ->
  buckets current end_time = current :: buckets (current + MINUTE) end_time.
Proof.
  intros Hlt. unfold buckets.
  pose proof MINUTE_pos as Hp.
  set (n' := (end_time - (current + MINUTE) + MINUTE - 1) / MINUTE).
  assert (Hn : (end_time - current + MINUTE - 1) / MINUTE = n' + 1).
  { unfold n'.
    replace (end_time - current + MINUTE - 1)
      with (end_time - (current + MINUTE) + MINUTE - 1 + 1 * MINUTE) by lia.
    apply Z.div_add. lia. }
  assert (Hn' : 0 <= n').
  { unfold n'. apply Z.div_pos; lia. }
  rewrite Hn, Z2Nat.inj_add by lia.
  replace (Z.to_nat n' + Z.to_nat 1)%nat with (S (Z.to_nat n')) by lia.
  simpl seq. simpl map. f_equal; [lia|].
  rewrite <- seq_shift, map_map.
  apply map_ext. intros k. lia.
Qed.

Lemma buckets_bounds (current end_time t : datetime) :
  In t (buckets current end_time) ->
  current <= t < end_time /\ exists k, 0 <= k /\ t = current + k * MINUTE.
Proof.
  unfold buckets. rewrite in_map_iff. intros (k & <- & Hk).
  apply in_seq in Hk. pose proof MINUTE_pos as Hp.
  split; [|exists (Z.of_nat k); lia].
  split; [lia|].
  destruct (Z_le_gt_dec ((end_time - current + MINUTE - 1) / MINUTE) 0) as [Hz|Hz]; [lia|].
  assert (Z.of_nat k + 1 <= (end_time - current + MINUTE - 1) / MINUTE) by lia.
  pose proof (Z.mul_div_le (end_time - current + MINUTE - 1) MINUTE Hp).
  nia.
Qed.

Lemma buckets_complete (current end_time : datetime) (k : Z) :
  0 <= k -> current + k * MINUTE < end_time ->
  In (current + k * MINUTE) (buckets current end_time).
Proof.
  intros Hk Hlt. unfold buckets. apply in_map_iff.
  exists (Z.to_nat k). split; [rewrite Z2Nat.id by lia; reflexivity|].
  apply in_seq. pose proof MINUTE_pos as Hp.
  assert (k + 1 <= (end_time - current + MINUTE - 1) / MINUTE); [|lia].
  apply Z.div_le_lower_bound; lia.
Qed.

Lemma buckets_sorted (current end_time : datetime) :
  StronglySorted Z.lt (buckets current end_time).
Proof.
  unfold buckets.
  generalize (Z.to_nat ((end_time - current + MINUTE - 1) / MINUTE)) as n.
  generalize 0%nat as i.
  intros i n. revert i.
  induction n as [|n IH]; intros i; simpl; constructor.
  - apply IH.
  - apply List.Forall_forall. intros t Ht. apply in_map_iff in Ht as (k & <- & Hk).
    apply in_seq in Hk. pose proof MINUTE_pos. nia.
Qed.

Lemma minutes_fuel_enough (current end_time : datetime) :
  end_time - current <= Z.of_nat (minutes_fuel current end_time) * MINUTE.
Proof.
  unfold minutes_fuel.
  set (d := end_time - current).
  pose proof MINUTE_pos as Hp.
  destruct (Z_le_gt_dec d 0) as [Hneg|Hpos]; [lia|].
  pose proof (Z.div_mod d MINUTE ltac:(lia)) as Hd.
  pose proof (Z.mod_pos_bound d MINUTE Hp) as Hm.
  assert (0 <= d / MINUTE) by (apply Z.div_pos; lia).
  rewrite Z2Nat.id by lia. nia.
Qed.

(* ===================================================================== *)
(** ** The speed-layer loop *)
(* ===================================================================== *)

Section SpeedLoop.

Variable py_int : string -> option Z.
Variable self : AnalyticsService.

Ltac run_bucket t :=
  unfold speed_bucket, bucket_readable, bucket_points, bucket_calls, speed_miss,
    redis_get, execute_bucket_count, bind, emit, ret, raise;
  destruct (redis self !! order_count_key t) as [[|a s]|]; simpl;
  try destruct (py_int (String a s)); simpl;
  try destruct (bucket_count (clickhouse self) t (t + MINUTE)); simpl;
  rewrite <- ?app_assoc, ?app_nil_r; simpl.

(** One pass of the loop body on a readable bucket *)
Lemma speed_bucket_readable (t : datetime) results log :
  bucket_readable py_int self t = true ->
  speed_bucket py_int self t results log
  = (Ok (results ++ bucket_points py_int self t), log ++ bucket_calls self t).
Proof. run_bucket t; intros H; try discriminate H; reflexivity. Qed.

(** One pass on a bucket whose value is not an integer literal *)
Lemma speed_bucket_unreadable (t : datetime) results log :
  bucket_readable py_int self t = false ->
  speed_bucket py_int self t results log
  = (Raise ValueError, log ++ [Redis_get (order_count_key t)]).
Proof. run_bucket t; intros H; try discriminate H; reflexivity. Qed.

(** With a step per bucket the loop is the traversal of the bucket list. *)
Lemma speed_loop_is_fold (end_time : datetime) (fuel : nat) :
  forall current results log,
    end_time - current <= Z.of_nat fuel * MINUTE ->
    speed_loop py_int fuel self current end_time results log
    = speed_fold py_int self (buckets current end_time) results log.
Proof.
  induction fuel as [|fuel IH]; intros current results log Hfuel; simpl.
  - destruct (Z.ltb_spec current end_time) as [Hlt|Hge]; [lia|].
    rewrite buckets_done by lia. reflexivity.
  - destruct (Z.ltb_spec current end_time) as [Hlt|Hge].
    + rewrite buckets_step by lia. simpl. unfold bind.
      destruct (speed_bucket py_int self current results log) as [[r|e|] log'];
        try reflexivity.
      apply IH. pose proof MINUTE_pos. lia.
    + rewrite buckets_done by lia. reflexivity.
Qed.

Lemma speed_fold_readable (bs : list datetime) :
  forall results log,
    forallb (bucket_readable py_int self) bs = true ->
    speed_fold py_int self bs results log
    = (Ok (results ++ flat_map (bucket_points py_int self) bs),
       log ++ flat_map (bucket_calls self) bs).
Proof.
  induction bs as [|t bs IH]; intros results log Hall; simpl.
  - rewrite !app_nil_r. reflexivity.
  - simpl in Hall. apply andb_prop in Hall as [Ht Hbs].
    unfold bind. rewrite (speed_bucket_readable t results log Ht).
    rewrite (IH _ _ Hbs), <- !app_assoc. reflexivity.
Qed.

Lemma speed_fold_returns (bs : list datetime) :
  forall results log results' log',
    speed_fold py_int self bs results log = (Ok results', log') ->
    forallb (bucket_readable py_int self) bs = true.
Proof.
  induction bs as [|t bs IH]; intros results log results' log' Hrun; simpl in *.
  - reflexivity.
  - unfold bind in Hrun.
    destruct (bucket_readable py_int self t) eqn:Ht.
    + rewrite (speed_bucket_readable t results log Ht) in Hrun.
      simpl. eapply IH. exact Hrun.
    + rewrite (speed_bucket_unreadable t results log Ht) in Hrun. discriminate Hrun.
Qed.

Lemma speed_fold_never_stuck (bs : list datetime) :
  forall results log log',
    speed_fold py_int self bs results log <> (NoFuel, log').
Proof.
  induction bs as [|t bs IH]; intros results log log' Hrun; simpl in *.
  - discriminate Hrun.
  - unfold bind in Hrun.
    destruct (bucket_readable py_int self t) eqn:Ht.
    + rewrite (speed_bucket_readable t results log Ht) in Hrun.
      eapply IH. exact Hrun.
    + rewrite (speed_bucket_unreadable t results log Ht) in Hrun. discriminate Hrun.
Qed.

(** Step 3 as a whole *)
Lemma speed_layer_is_fold (end_time c : datetime) results log :
  speed_layer py_int self end_time c results log
  = speed_fold py_int self (buckets c end_time) results log.
Proof.
  unfold speed_layer.
  destruct (Z.gtb_spec end_time c) as [Hgt|Hle].
  - apply speed_loop_is_fold, minutes_fuel_enough.
  - rewrite buckets_done by lia. reflexivity.
Qed.

(** The whole method, when every value the speed store holds for a
    bucket of the range is an integer literal: it returns the batch rows
    followed by one pass per bucket, and makes exactly these calls. *)
Lemma get_order_count_by_minute_readable (start_time end_time c : datetime) log :
  batch_latest start_time end_time = Some c ->
  forallb (bucket_readable py_int self) (buckets c end_time) = true ->
  get_order_count_by_minute py_int self start_time end_time log
  = (Ok (batch_points self start_time end_time c ++ speed_points py_int self end_time c),
     log ++ batch_calls start_time end_time c ++ speed_calls self end_time c).
Proof.
  intros Hc Hall. unfold get_order_count_by_minute, bind at 1.
  rewrite Hc. simpl. unfold bind at 1.
  unfold batch_layer, batch_points, batch_calls, speed_points, speed_calls.
  destruct (start_time <? c).
  - unfold execute_orders_by_minute, bind, emit, ret. simpl.
    rewrite speed_layer_is_fold, (speed_fold_readable _ _ _ Hall).
    rewrite <- !app_assoc. reflexivity.
  - unfold ret at 1. unfold bind.
    rewrite speed_layer_is_fold, (speed_fold_readable _ _ _ Hall).
    reflexivity.
Qed.

(** Conversely a call that returns has read only integer literals. *)
Lemma get_order_count_by_minute_returns (start_time end_time : datetime) log results log' :
  get_order_count_by_minute py_int self start_time end_time log = (Ok results, log') ->
  exists c,
    batch_latest start_time end_time = Some c /\
    forallb (bucket_readable py_int self) (buckets c end_time) = true.
Proof.
  intros Hrun.
  destruct (batch_latest_total start_time end_time) as (c & Hc & _).
  exists c. split; [exact Hc|].
  unfold get_order_count_by_minute, bind at 1 in Hrun.
  rewrite Hc in Hrun. simpl in Hrun. unfold bind at 1 in Hrun.
  destruct (batch_layer self start_time end_time c [] log) as [[r|e|] log1];
    try discriminate Hrun.
  unfold bind in Hrun. rewrite speed_layer_is_fold in Hrun.
  destruct (speed_fold py_int self (buckets c end_time) r log1) as [[r'|e|] log2] eqn:Hfold;
    try discriminate Hrun.
  eapply speed_fold_returns. exact Hfold.
Qed.

(** The model's loops never run out of steps. *)
Lemma get_order_count_by_minute_never_stuck (start_time end_time : datetime) log log' :
  get_order_count_by_minute py_int self start_time end_time log <> (NoFuel, log').
Proof.
  intros Hrun.
  destruct (batch_latest_total start_time end_time) as (c & Hc & _).
  unfold get_order_count_by_minute, bind at 1 in Hrun.
  rewrite Hc in Hrun. simpl in Hrun. unfold bind at 1 in Hrun.
  unfold batch_layer in Hrun.
  destruct (start_time <? c).
  - unfold execute_orders_by_minute, bind at 1, emit, ret in Hrun. simpl in Hrun.
    unfold bind in Hrun. simpl in Hrun. rewrite speed_layer_is_fold in Hrun.
    match type of Hrun with context [speed_fold ?p ?s ?b ?r ?l] =>
      destruct (speed_fold p s b r l) as [[r'|e|] log2] eqn:Hfold end;
      try discriminate Hrun.
    eapply speed_fold_never_stuck. exact Hfold.
  - unfold ret at 1 in Hrun. unfold bind in Hrun. rewrite speed_layer_is_fold in Hrun.
    match type of Hrun with context [speed_fold ?p ?s ?b ?r ?l] =>
      destruct (speed_fold p s b r l) as [[r'|e|] log2] eqn:Hfold end;
      try discriminate Hrun.
    eapply speed_fold_never_stuck. exact Hfold.
Qed.

End SpeedLoop.

(* ===================================================================== *)
(** ** What one bucket contributes *)
(* ===================================================================== *)

Section Buckets.

Variable py_int : string -> option Z.
Variable self : AnalyticsService.

Lemma bucket_points_timestamp (t : datetime) (p : datetime * Z) :
  In p (bucket_points py_int self t) -> fst p = t.
Proof.
  unfold bucket_points.
  destruct (redis self !! order_count_key t) as [[|a s]|];
    try destruct (py_int (String a s));
    try destruct (bucket_count (clickhouse self) t (t + MINUTE));
    simpl; intros H; first [contradiction | destruct H as [<-|[]]; reflexivity].
Qed.

Lemma bucket_points_miss (t : datetime) :
  speed_miss self t = true ->
  bucket_points py_int self t
  = fallback_point t (bucket_count (clickhouse self) t (t + MINUTE)).
Proof.
  unfold speed_miss, bucket_points, fallback_point.
  destruct (redis self !! order_count_key t) as [[|a s]|];
    intros H; try discriminate H; reflexivity.
Qed.

Lemma bucket_calls_inv (t : datetime) (c : call) :
  In c (bucket_calls self t) ->
  c = Redis_get (order_count_key t) \/ c = Execute_bucket_count t (t + MINUTE).
Proof.
  unfold bucket_calls. destruct (speed_miss self t); simpl; intuition.
Qed.

Lemma speed_points_in (bs : list datetime) (p : datetime * Z) :
  In p (flat_map (bucket_points py_int self) bs) -> In (fst p) bs.
Proof.
  rewrite in_flat_map. intros (t & Ht & Hp).
  rewrite (bucket_points_timestamp t p Hp). exact Ht.
Qed.

Lemma speed_points_sorted (bs : list datetime) :
  StronglySorted Z.lt bs ->
  StronglySorted Z.lt (timestamps (flat_map (bucket_points py_int self) bs)).
Proof.
  unfold timestamps.
  induction 1 as [|t bs Hsorted IH Hall]; simpl; [constructor|].
  rewrite map_app.
  assert (Htail : forall x, In x (map fst (flat_map (bucket_points py_int self) bs)) -> t < x).
  { intros x Hx. apply in_map_iff in Hx as (p & <- & Hp).
    apply speed_points_in in Hp.
    rewrite List.Forall_forall in Hall. apply Hall. exact Hp. }
  pose proof (bucket_points_timestamp t) as Hts.
  destruct (bucket_points py_int self t) as [|p [|p' ps]] eqn:Hpts; simpl.
  - exact IH.
  - constructor; [exact IH|].
    apply List.Forall_forall. intros x Hx.
    rewrite (Hts p) by (left; reflexivity). apply Htail. exact Hx.
  - exfalso. revert Hpts. unfold bucket_points.
    destruct (redis self !! order_count_key t) as [[|a s]|];
      try destruct (py_int (String a s));
      try destruct (bucket_count (clickhouse self) t (t + MINUTE));
      discriminate.
Qed.

End Buckets.

Lemma sorted_lt_NoDup (l : list Z) : StronglySorted Z.lt l -> List.NoDup l.
Proof.
  induction 1 as [|x l Hsorted IH Hall]; constructor; [|exact IH].
  intros Hin. rewrite List.Forall_forall in Hall. specialize (Hall x Hin). lia.
Qed.

Lemma sorted_lt_le (l : list Z) : StronglySorted Z.lt l -> StronglySorted Z.le l.
Proof.
  induction 1 as [|x l Hsorted IH Hall]; constructor; [exact IH|].
  eapply List.Forall_impl; [|exact Hall]. simpl. intros y Hy. lia.
Qed.

(** Ascending rows without a repeated key are strictly ascending. *)
Lemma sorted_le_NoDup_lt (l : list Z) :
  StronglySorted Z.le l -> List.NoDup l -> StronglySorted Z.lt l.
Proof.
  induction 1 as [|x l Hsorted IH Hall]; intros Hnodup; constructor.
  - apply IH. inversion Hnodup; assumption.
  - apply List.Forall_forall. intros y Hy.
    rewrite List.Forall_forall in Hall. specialize (Hall y Hy).
    assert (x <> y) by (intros ->; inversion Hnodup; contradiction).
    lia.
Qed.

Lemma sorted_lt_split (l1 l2 : list Z) (x : Z) :
  StronglySorted Z.lt (l1 ++ x :: l2) -> ~ In x l1 /\ ~ In x l2.
Proof.
  induction l1 as [|y l1 IH]; simpl; intros Hsorted.
  - apply StronglySorted_inv in Hsorted as [_ Hall].
    rewrite List.Forall_forall in Hall.
    split; [tauto|]. intros Hin. specialize (Hall x Hin). lia.
  - apply StronglySorted_inv in Hsorted as [Hsorted Hall].
    destruct (IH Hsorted) as [H1 H2]. split; [|exact H2].
    intros [->|Hin]; [|tauto].
    rewrite List.Forall_forall in Hall.
    specialize (Hall x ltac:(apply in_or_app; right; left; reflexivity)). lia.
Qed.

Lemma sorted_lt_app (l1 l2 : list Z) :
  StronglySorted Z.lt l1 -> StronglySorted Z.lt l2 ->
  (forall x y, In x l1 -> In y l2 -> x < y) ->
  StronglySorted Z.lt (l1 ++ l2).
Proof.
  induction 1 as [|x l1 Hsorted IH Hall]; intros H2 Hcross; simpl; [exact H2|].
  constructor.
  - apply IH; [exact H2|]. intros a b Ha Hb. apply Hcross; [right; exact Ha|exact Hb].
  - apply List.Forall_forall. intros y Hy. apply in_app_or in Hy as [Hy|Hy].
    + rewrite List.Forall_forall in Hall. apply Hall. exact Hy.
    + apply Hcross; [left; reflexivity|exact Hy].
Qed.

(* ===================================================================== *)
(** ** The fallback on a speed-layer miss *)
(* ===================================================================== *)

Lemma fallback_call_elsewhere (self : AnalyticsService) (bs : list datetime) (t : datetime) :
  ~ In t bs ->
  ~ In (Execute_bucket_count t (t + MINUTE)) (flat_map (bucket_calls self) bs).
Proof.
  intros Hnot Hin. apply in_flat_map in Hin as (t' & Ht' & Hc).
  apply bucket_calls_inv in Hc as [Hc|Hc]; [discriminate Hc|].
  injection Hc as -> _. contradiction.
Qed.

Lemma points_elsewhere (py_int : string -> option Z) (self : AnalyticsService)
    (bs : list datetime) (t : datetime) (p : datetime * Z) :
  ~ In t bs -> In p (flat_map (bucket_points py_int self) bs) -> fst p <> t.
Proof.
  intros Hnot Hin Heq. apply speed_points_in in Hin. rewrite Heq in Hin. contradiction.
Qed.

(** C2.  Let the speed store hold no value for a bucket [t] of the
    speed-layer portion.  Then the call queries the batch store once for
    the window [t, t + 1min), and the bucket's place in the series holds
    the first row of that answer as the point of [t], or no point at all
    when the answer has no rows: no other point of the speed-layer portion
    carries the timestamp [t], so no zero is made up for it. *)
Theorem speed_miss_falls_back_to_batch (py_int : string -> option Z)
    (self : AnalyticsService) (start_time end_time c t : datetime) :
  batch_latest start_time end_time = Some c ->
  forallb (bucket_readable py_int self) (buckets c end_time) = true ->
  In t (buckets c end_time) ->
  speed_miss self t = true ->
  exists results log,
    get_order_count_by_minute py_int self start_time end_time [] = (Ok results, log) /\
    issued_once (Execute_bucket_count t (t + MINUTE)) log /\
    exists before after,
      results = batch_points self start_time end_time c ++ before
                ++ fallback_point t (bucket_count (clickhouse self) t (t + MINUTE))
                ++ after /\
      forall p, In p before \/ In p after -> fst p <> t.
Proof.
  intros Hc Hall Ht Hmiss.
  rewrite (get_order_count_by_minute_readable py_int self _ _ c [] Hc Hall).
  eexists. eexists. split; [reflexivity|].
  pose proof (buckets_sorted c end_time) as Hsorted.
  apply in_split in Ht as (bs1 & bs2 & Hbs).
  rewrite Hbs in Hsorted. apply sorted_lt_split in Hsorted as [Hbs1 Hbs2].
  unfold speed_calls, speed_points. rewrite Hbs, !flat_map_app. simpl flat_map.
  rewrite (bucket_points_miss py_int self t Hmiss).
  unfold bucket_calls at 2. rewrite Hmiss. simpl.
  split.
  - exists (batch_calls start_time end_time c
            ++ flat_map (bucket_calls self) bs1 ++ [Redis_get (order_count_key t)]).
    exists (flat_map (bucket_calls self) bs2).
    split; [rewrite <- !app_assoc; reflexivity|].
    split; [|apply fallback_call_elsewhere; exact Hbs2].
    intros Hin. apply in_app_or in Hin as [Hin|Hin].
    + unfold batch_calls in Hin. destruct (start_time <? c); simpl in Hin;
        [destruct Hin as [Hin|[]]; discriminate Hin|contradiction].
    + apply in_app_or in Hin as [Hin|Hin].
      * revert Hin. apply fallback_call_elsewhere. exact Hbs1.
      * destruct Hin as [Hin|[]]. discriminate Hin.
  - exists (flat_map (bucket_points py_int self) bs1).
    exists (flat_map (bucket_points py_int self) bs2).
    split; [reflexivity|].
    intros p [Hp|Hp].
    + exact (points_elsewhere py_int self bs1 t p Hbs1 Hp).
    + exact (points_elsewhere py_int self bs2 t p Hbs2 Hp).
Qed.

Lemma speed_miss_falls_back_to_batch_witness :
  exists results log,
    get_order_count_by_minute int_of_decimal scenario_b (at_ 14 0) (at_ 14 5) []
    = (Ok results, log) /\
    issued_once (Execute_bucket_count (at_ 14 2) (at_ 14 2 + MINUTE)) log /\
    exists before after,
      results = batch_points scenario_b (at_ 14 0) (at_ 14 5) (at_ 14 0) ++ before
                ++ fallback_point (at_ 14 2)
                     (bucket_count (clickhouse scenario_b) (at_ 14 2) (at_ 14 2 + MINUTE))
                ++ after /\
      forall p, In p before \/ In p after -> fst p <> at_ 14 2.
Proof.
  apply (speed_miss_falls_back_to_batch int_of_decimal scenario_b
           (at_ 14 0) (at_ 14 5) (at_ 14 0) (at_ 14 2)).
  - vm_compute. reflexivity.
  - vm_compute. reflexivity.
  - vm_compute. right. right. left. reflexivity.
  - vm_compute. reflexivity.
Defined.

(** Scenario B, run on the range 14:00-14:05: the merged series holds
    (14:02, 7), read through the fallback query. *)
Example scenario_b_series :
  get_order_count_by_minute int_of_decimal scenario_b (at_ 14 0) (at_ 14 5) []
  = (Ok [(at_ 14 0, 3); (at_ 14 1, 4); (at_ 14 2, 7); (at_ 14 3, 6); (at_ 14 4, 2)],
     [Redis_get (order_count_key (at_ 14 0));
      Redis_get (order_count_key (at_ 14 1));
      Redis_get (order_count_key (at_ 14 2));
      Execute_bucket_count (at_ 14 2) (at_ 14 3);
      Redis_get (order_count_key (at_ 14 3));
      Redis_get (order_count_key (at_ 14 4))]).
Proof. vm_compute. reflexivity. Qed.

(* ===================================================================== *)
(** ** Where the speed layer starts *)
(* ===================================================================== *)

(** On every range with [start_time <= end_time] the speed layer runs, and
    its first lookup is the bucket of the cutover itself, whatever
    [start_time] is. *)
Lemma speed_layer_starts_at_cutover (py_int : string -> option Z)
    (self : AnalyticsService) (start_time end_time c : datetime) :
  start_time <= end_time ->
  batch_latest start_time end_time = Some c ->
  forallb (bucket_readable py_int self) (buckets c end_time) = true ->
  exists results log,
    get_order_count_by_minute py_int self start_time end_time [] = (Ok results, log) /\
    In (Redis_get (order_count_key c)) log /\
    forall p, In p (bucket_points py_int self c) -> In p results.
Proof.
  intros Hrange Hc Hall.
  destruct (batch_latest_window _ _ Hrange) as (c' & Hc' & _ & Hlt & _).
  rewrite Hc in Hc'. injection Hc' as <-.
  rewrite (get_order_count_by_minute_readable py_int self _ _ c [] Hc Hall).
  eexists. eexists. split; [reflexivity|].
  unfold speed_calls, speed_points. rewrite (buckets_step c end_time Hlt). simpl.
  split.
  - apply in_or_app. right. left. reflexivity.
  - intros p Hp. apply in_or_app. right. apply in_or_app. left. exact Hp.
Qed.

(** C3 (the code at a failing input).  On the range 14:03-14:05, whose
    cutover is 14:00, the speed layer looks up the buckets 14:00, 14:01 and
    14:02 and returns their points, although they lie before
    [start_time]. *)
Theorem speed_layer_reads_before_start :
  get_order_count_by_minute int_of_decimal scenario_b (at_ 14 3) (at_ 14 5) []
  = (Ok [(at_ 14 0, 3); (at_ 14 1, 4); (at_ 14 2, 7); (at_ 14 3, 6); (at_ 14 4, 2)],
     [Redis_get (order_count_key (at_ 14 0));
      Redis_get (order_count_key (at_ 14 1));
      Redis_get (order_count_key (at_ 14 2));
      Execute_bucket_count (at_ 14 2) (at_ 14 3);
      Redis_get (order_count_key (at_ 14 3));
      Redis_get (order_count_key (at_ 14 4))])
  /\ at_ 14 0 < at_ 14 3.
Proof. split; vm_compute; reflexivity. Qed.

(** C4 (the code at a failing input).  On the zero-length range
    14:03-14:03 the call returns three points and makes four store
    calls. *)
Theorem zero_length_range_is_not_empty :
  get_order_count_by_minute int_of_decimal scenario_b (at_ 14 3) (at_ 14 3) []
  = (Ok [(at_ 14 0, 3); (at_ 14 1, 4); (at_ 14 2, 7)],
     [Redis_get (order_count_key (at_ 14 0));
      Redis_get (order_count_key (at_ 14 1));
      Redis_get (order_count_key (at_ 14 2));
      Execute_bucket_count (at_ 14 2) (at_ 14 3)]).
Proof. vm_compute. reflexivity. Qed.

(** No zero-length range is served without a call on the speed store. *)
Lemma zero_length_range_calls_speed_store (py_int : string -> option Z)
    (self : AnalyticsService) (t c : datetime) :
  batch_latest t t = Some c ->
  forallb (bucket_readable py_int self) (buckets c t) = true ->
  exists results log,
    get_order_count_by_minute py_int self t t [] = (Ok results, log) /\
    In (Redis_get (order_count_key c)) log.
Proof.
  intros Hc Hall.
  destruct (speed_layer_starts_at_cutover py_int self t t c (Z.le_refl t) Hc Hall)
    as (results & log & Hrun & Hin & _).
  exists results, log. split; assumption.
Qed.

(* ===================================================================== *)
(** ** Disjointness and order of the merged series *)
(* ===================================================================== *)

Lemma batch_points_below_cutover (self : AnalyticsService) (start_time end_time c : datetime) :
  honours_where (clickhouse self) ->
  Forall (fun t => t < c) (timestamps (batch_points self start_time end_time c)).
Proof.
  intros Hwhere. unfold batch_points.
  destruct (start_time <? c); [|constructor].
  eapply List.Forall_impl; [|apply Hwhere]. simpl. intros t Ht. lia.
Qed.

Lemma speed_points_from_cutover (py_int : string -> option Z) (self : AnalyticsService)
    (end_time c : datetime) :
  Forall (fun t => c <= t < end_time) (timestamps (speed_points py_int self end_time c)).
Proof.
  apply List.Forall_forall. intros t Ht. unfold timestamps in Ht.
  apply in_map_iff in Ht as (p & <- & Hp).
  apply speed_points_in, buckets_bounds in Hp as [Hb _]. exact Hb.
Qed.

(** C5.  At the cutover [c] the two reads are disjoint: every timestamp
    the batch-layer read contributes is [< c], given that the batch store
    honours the [WHERE created_at < end] of the query, and every timestamp
    the speed-layer read contributes, fallback points included, is
    [>= c]. *)
Theorem layers_disjoint_at_cutover (py_int : string -> option Z)
    (self : AnalyticsService) (start_time end_time c : datetime) :
  batch_latest start_time end_time = Some c ->
  honours_where (clickhouse self) ->
  forallb (bucket_readable py_int self) (buckets c end_time) = true ->
  exists log,
    get_order_count_by_minute py_int self start_time end_time []
    = (Ok (batch_points self start_time end_time c ++ speed_points py_int self end_time c),
       log) /\
    Forall (fun t => t < c) (timestamps (batch_points self start_time end_time c)) /\
    Forall (fun t => c <= t) (timestamps (speed_points py_int self end_time c)).
Proof.
  intros Hc Hwhere Hall.
  rewrite (get_order_count_by_minute_readable py_int self _ _ c [] Hc Hall).
  eexists. split; [reflexivity|]. split.
  - apply batch_points_below_cutover. exact Hwhere.
  - eapply List.Forall_impl; [|apply speed_points_from_cutover]. simpl. intros t Ht. lia.
Qed.

(** C6.  When the batch store returns the rows of the grouped query in
    the order of its [ORDER BY minute], one row per group and within the
    bounds of its [WHERE], the merged series is strictly increasing by
    timestamp and has no duplicate bucket. *)
Theorem merged_series_strictly_increasing (py_int : string -> option Z)
    (self : AnalyticsService) (start_time end_time c : datetime) :
  batch_latest start_time end_time = Some c ->
  honours_where (clickhouse self) ->
  honours_group_by (clickhouse self) ->
  honours_order_by (clickhouse self) ->
  forallb (bucket_readable py_int self) (buckets c end_time) = true ->
  exists results log,
    get_order_count_by_minute py_int self start_time end_time [] = (Ok results, log) /\
    StronglySorted Z.lt (timestamps results) /\
    List.NoDup (timestamps results).
Proof.
  intros Hc Hwhere Hgroup Horder Hall.
  rewrite (get_order_count_by_minute_readable py_int self _ _ c [] Hc Hall).
  eexists. eexists. split; [reflexivity|].
  assert (Hsorted : StronglySorted Z.lt
            (timestamps (batch_points self start_time end_time c
                         ++ speed_points py_int self end_time c))).
  { unfold timestamps. rewrite map_app. apply sorted_lt_app.
    - unfold batch_points. destruct (start_time <? c); [|constructor].
      apply sorted_le_NoDup_lt; [apply Horder|apply Hgroup].
    - apply speed_points_sorted, buckets_sorted.
    - intros x y Hx Hy.
      pose proof (batch_points_below_cutover self start_time end_time c Hwhere) as Hb.
      pose proof (speed_points_from_cutover py_int self end_time c) as Hs.
      rewrite List.Forall_forall in Hb, Hs.
      specialize (Hb x Hx). specialize (Hs y Hy). lia. }
  split; [exact Hsorted|]. apply sorted_lt_NoDup. exact Hsorted.
Qed.

Lemma select_minutes_where (table : list (datetime * Z)) (s e : datetime) :
  Forall (fun m => m < e) (timestamps (select_minutes table s e)).
Proof.
  apply List.Forall_forall. intros m Hm. unfold timestamps, select_minutes in Hm.
  apply in_map_iff in Hm as (row & <- & Hrow).
  apply filter_In in Hrow as [_ Hkeep].
  apply andb_prop in Hkeep as [_ Hlt]. apply Z.ltb_lt. exact Hlt.
Qed.

Lemma select_minutes_sorted (table : list (datetime * Z)) (s e : datetime) :
  StronglySorted Z.lt (timestamps table) ->
  StronglySorted Z.lt (timestamps (select_minutes table s e)).
Proof.
  unfold timestamps, select_minutes.
  induction table as [|row table IH]; simpl; intros Hsorted; [constructor|].
  apply StronglySorted_inv in Hsorted as [Hsorted Hall].
  cbn. destruct (_ && _) eqn:Hkeep; cbn; [|apply IH; exact Hsorted].
  constructor; [apply IH; exact Hsorted|].
  apply List.Forall_forall. intros m Hm.
  apply in_map_iff in Hm as (row' & <- & Hrow'). apply filter_In in Hrow' as [Hin _].
  rewrite List.Forall_forall in Hall. apply Hall. apply in_map. exact Hin.
Qed.

Lemma two_layers_where : honours_where (clickhouse two_layers).
Proof. intros s e. apply select_minutes_where. Qed.

Lemma two_layers_sorted (s e : datetime) :
  StronglySorted Z.lt (timestamps (orders_by_minute (clickhouse two_layers) s e)).
Proof.
  apply select_minutes_sorted.
  repeat (constructor; [|repeat (constructor; try (vm_compute; reflexivity))]).
  constructor.
Qed.

Lemma two_layers_group_by : honours_group_by (clickhouse two_layers).
Proof. intros s e. apply sorted_lt_NoDup, two_layers_sorted. Qed.

Lemma two_layers_order_by : honours_order_by (clickhouse two_layers).
Proof. intros s e. apply sorted_lt_le, two_layers_sorted. Qed.

Lemma layers_disjoint_at_cutover_witness :
  exists log,
    get_order_count_by_minute int_of_decimal two_layers (at_ 13 30) (at_ 14 5) []
    = (Ok (batch_points two_layers (at_ 13 30) (at_ 14 5) (at_ 14 0)
           ++ speed_points int_of_decimal two_layers (at_ 14 5) (at_ 14 0)),
       log) /\
    Forall (fun t => t < at_ 14 0)
           (timestamps (batch_points two_layers (at_ 13 30) (at_ 14 5) (at_ 14 0))) /\
    Forall (fun t => at_ 14 0 <= t)
           (timestamps (speed_points int_of_decimal two_layers (at_ 14 5) (at_ 14 0))).
Proof.
  apply (layers_disjoint_at_cutover int_of_decimal two_layers
           (at_ 13 30) (at_ 14 5) (at_ 14 0)).
  - vm_compute. reflexivity.
  - exact two_layers_where.
  - vm_compute. reflexivity.
Defined.

Lemma merged_series_strictly_increasing_witness :
  exists results log,
    get_order_count_by_minute int_of_decimal two_layers (at_ 13 30) (at_ 14 5) []
    = (Ok results, log) /\
    StronglySorted Z.lt (timestamps results) /\
    List.NoDup (timestamps results).
Proof.
  apply (merged_series_strictly_increasing int_of_decimal two_layers
           (at_ 13 30) (at_ 14 5) (at_ 14 0)).
  - vm_compute. reflexivity.
  - exact two_layers_where.
  - exact two_layers_group_by.
  - exact two_layers_order_by.
  - vm_compute. reflexivity.
Defined.

(** The series of that call: three batch rows, then five speed buckets. *)
Example two_layers_series :
  fst (get_order_count_by_minute int_of_decimal two_layers (at_ 13 30) (at_ 14 5) [])
  = Ok [(at_ 13 30, 2); (at_ 13 45, 5); (at_ 13 59, 1);
        (at_ 14 0, 3); (at_ 14 1, 4); (at_ 14 2, 7); (at_ 14 3, 6); (at_ 14 4, 2)].
Proof. vm_compute. reflexivity. Qed.

(* ===================================================================== *)
(** ** Scenario A: the window 13:00-14:30 *)
(* ===================================================================== *)

Lemma on_day_hour_aligned (d h : Z) : aligned HOUR (on_day d h 0).
Proof.
  unfold aligned, on_day, DAY.
  replace (d * (24 * HOUR) + h * HOUR + 0 * MINUTE) with ((d * 24 + h) * HOUR) by lia.
  apply Z.mod_mul. pose proof HOUR_pos. lia.
Qed.

Lemma on_day_minute (d h m : Z) : on_day d h m = on_day d h 0 + m * MINUTE.
Proof. unfold on_day. lia. Qed.

Lemma scenario_a_cutover (d : date) :
  batch_latest (on_day d 13 0) (on_day d 14 30) = Some (on_day d 14 0).
Proof.
  assert (Hrange : on_day d 13 0 <= on_day d 14 30).
  { unfold on_day, HOUR, MINUTE, SECOND. lia. }
  destruct (batch_latest_window _ _ Hrange) as (c & Hc & Hal & Hlt & Hle).
  rewrite Hc. f_equal.
  pose proof (on_day_hour_aligned d 14) as H14.
  destruct (Z.lt_trichotomy c (on_day d 14 0)) as [Hbelow|[Heq|Habove]].
  - pose proof (aligned_gap _ _ Hal H14 Hbelow).
    unfold on_day, HOUR, MINUTE, SECOND in *. lia.
  - exact Heq.
  - pose proof (aligned_gap _ _ H14 Hal Habove).
    unfold on_day, HOUR, MINUTE, SECOND in *. lia.
Qed.

Lemma scenario_a_buckets (d : date) :
  buckets (on_day d 14 0) (on_day d 14 30)
  = map (fun k => on_day d 14 (Z.of_nat k)) (seq 0 30).
Proof.
  unfold buckets.
  replace (on_day d 14 30 - on_day d 14 0 + MINUTE - 1) with (30 * MINUTE + (MINUTE - 1))
    by (unfold on_day; lia).
  replace (Z.to_nat ((30 * MINUTE + (MINUTE - 1)) / MINUTE)) with 30%nat
    by (vm_compute; reflexivity).
  apply map_ext. intros k. rewrite (on_day_minute d 14 (Z.of_nat k)). reflexivity.
Qed.

(** C9 (amended).  For the window 13:00-14:30 of any day and the hourly
    cadence the cutover is 14:00; the batch layer covers [13:00, 14:00)
    with one grouped query, and the speed layer covers [14:00, 14:30)
    bucket by bucket, thirty buckets in all. *)
Theorem scenario_a_splits_at_14 (py_int : string -> option Z)
    (self : AnalyticsService) (d : date) :
  forallb (bucket_readable py_int self) (buckets (on_day d 14 0) (on_day d 14 30)) = true ->
  batch_latest (on_day d 13 0) (on_day d 14 30) = Some (on_day d 14 0) /\
  buckets (on_day d 14 0) (on_day d 14 30)
  = map (fun k => on_day d 14 (Z.of_nat k)) (seq 0 30) /\
  get_order_count_by_minute py_int self (on_day d 13 0) (on_day d 14 30) []
  = (Ok (orders_by_minute (clickhouse self) (on_day d 13 0) (on_day d 14 0)
         ++ flat_map (bucket_points py_int self) (buckets (on_day d 14 0) (on_day d 14 30))),
     Execute_orders_by_minute (on_day d 13 0) (on_day d 14 0)
     :: flat_map (bucket_calls self) (buckets (on_day d 14 0) (on_day d 14 30))).
Proof.
  intros Hall.
  split; [apply scenario_a_cutover|]. split; [apply scenario_a_buckets|].
  rewrite (get_order_count_by_minute_readable py_int self _ _ _ []
             (scenario_a_cutover d) Hall).
  unfold batch_points, batch_calls, speed_points, speed_calls.
  assert (Hlt : (on_day d 13 0 <? on_day d 14 0) = true).
  { apply Z.ltb_lt. unfold on_day, HOUR, MINUTE, SECOND. lia. }
  assert (Hmin : Z.min (on_day d 14 30) (on_day d 14 0) = on_day d 14 0).
  { apply Z.min_r. unfold on_day, HOUR, MINUTE, SECOND. lia. }
  rewrite Hlt, Hmin. reflexivity.
Qed.

Lemma scenario_a_splits_at_14_witness :
  batch_latest (at_ 13 0) (at_ 14 30) = Some (at_ 14 0) /\
  buckets (at_ 14 0) (at_ 14 30)
  = map (fun k => on_day day_2025_01_15 14 (Z.of_nat k)) (seq 0 30) /\
  get_order_count_by_minute int_of_decimal two_layers (at_ 13 0) (at_ 14 30) []
  = (Ok (orders_by_minute (clickhouse two_layers) (at_ 13 0) (at_ 14 0)
         ++ flat_map (bucket_points int_of_decimal two_layers)
              (buckets (at_ 14 0) (at_ 14 30))),
     Execute_orders_by_minute (at_ 13 0) (at_ 14 0)
     :: flat_map (bucket_calls two_layers) (buckets (at_ 14 0) (at_ 14 30))).
Proof.
  apply (scenario_a_splits_at_14 int_of_decimal two_layers day_2025_01_15).
  vm_compute. reflexivity.
Defined.

(** C9 as stated fails: on the window 13:00-14:30 the cutover is 14:00,
    not 13:00; the batch layer is queried, for [13:00, 14:00); and the
    speed layer never looks up the bucket 13:00. *)
Lemma scenario_a_cutover_is_not_13 :
  batch_latest (at_ 13 0) (at_ 14 30) = Some (at_ 14 0) /\
  at_ 14 0 <> at_ 13 0 /\
  exists results log,
    get_order_count_by_minute int_of_decimal two_layers (at_ 13 0) (at_ 14 30) []
    = (Ok results, log) /\
    In (Execute_orders_by_minute (at_ 13 0) (at_ 14 0)) log /\
    In (at_ 13 30, 2) results /\
    ~ In (Redis_get (order_count_key (at_ 13 0))) log.
Proof.
  split; [vm_compute; reflexivity|]. split; [vm_compute; discriminate|].
  eexists. eexists. split; [vm_compute; reflexivity|].
  split; [left; reflexivity|]. split; [left; reflexivity|].
  intros Hin. repeat (destruct Hin as [Hin|Hin]; [discriminate Hin|]). exact Hin.
Qed.

(* ===================================================================== *)
(** ** Ratios of the aggregate queries *)
(* ===================================================================== *)

(** *** Signs under rounding *)

Lemma shr_1_nonneg (mrs : shr_record) : 0 <= shr_m mrs -> 0 <= shr_m (shr_1 mrs).
Proof.
  destruct mrs as [m r s]. simpl. destruct m as [|[p|p|]|p]; simpl; lia.
Qed.

Lemma iter_shr_1_nonneg (p : positive) :
  forall mrs, 0 <= shr_m mrs -> 0 <= shr_m (SpecFloat.iter_pos shr_1 p mrs).
Proof.
  induction p as [p IH|p IH|]; intros mrs H; simpl.
  - apply IH, IH, shr_1_nonneg, H.
  - apply IH, IH, H.
  - apply shr_1_nonneg, H.
Qed.

Lemma shr_fexp_nonneg (m e : Z) (l : location) :
  0 <= m -> 0 <= shr_m (fst (shr_fexp prec emax m e l)).
Proof.
  intros H. unfold shr_fexp, shr.
  assert (H0 : 0 <= shr_m (shr_record_of_loc m l)).
  { destruct l as [|[ | | ]]; simpl; exact H. }
  destruct (fexp prec emax (Zdigits2 m + e) - e) as [|p|p]; simpl; try exact H0.
  apply iter_shr_1_nonneg, H0.
Qed.

Lemma round_nearest_even_nonneg (m : Z) (l : location) :
  0 <= m -> 0 <= round_nearest_even m l.
Proof.
  intros H. destruct l as [|[ | | ]]; simpl; try lia.
  destruct (Z.even m); lia.
Qed.

(** Rounding a non-negative mantissa keeps the sign and gives no NaN. *)
Lemma binary_round_aux_signed (s : bool) (m e : Z) (l : location) :
  0 <= m -> signed s (binary_round_aux prec emax s m e l).
Proof.
  intros H. unfold binary_round_aux.
  pose proof (shr_fexp_nonneg m e l H) as H1.
  destruct (shr_fexp prec emax m e l) as [mrs' e'] eqn:E1. simpl in H1.
  pose proof (shr_fexp_nonneg _ e' loc_Exact
                (round_nearest_even_nonneg _ (loc_of_shr_record mrs') H1)) as H2.
  destruct (shr_fexp prec emax (round_nearest_even (shr_m mrs') (loc_of_shr_record mrs'))
              e' loc_Exact) as [mrs'' e''] eqn:E2.
  simpl in H2.
  destruct (shr_m mrs'') as [|p|p]; simpl; [reflexivity| |lia].
  destruct (_ <=? _); reflexivity.
Qed.

(** The quotient of a count by a positive count is not negative. *)
Lemma int_truediv_signed (a d : Z) :
  0 <= a -> 0 < d -> signed false (int_truediv a d).
Proof.
  intros Ha Hd. unfold int_truediv.
  destruct d as [|q|q]; try lia.
  destruct a as [|p|p]; try lia; simpl; [reflexivity|].
  unfold SFdiv_core_binary.
  set (m' := match _ with Z0 => Zpos p | Zpos _ => Z.shiftl (Zpos p) _ | Zneg _ => 0 end).
  assert (Hm : 0 <= m').
  { unfold m'. match goal with |- 0 <= match ?s with _ => _ end => destruct s end; try lia.
    apply Z.shiftl_nonneg. lia. }
  pose proof (Z.div_pos m' (Zpos q) Hm ltac:(lia)) as Hq.
  unfold Z.div in Hq. destruct (Z.div_eucl m' (Zpos q)) as [qz r]. simpl in Hq.
  apply binary_round_aux_signed. exact Hq.
Qed.

Lemma fmul_int_signed (x : pyfloat) (k : Z) (m : positive) (e : Z) :
  float_of_int k = S754_finite false m e ->
  signed false x -> signed false (fmul_int x k).
Proof.
  intros Hk Hx. unfold fmul_int. rewrite Hk.
  destruct x as [sx|sx| |sx mx ex]; simpl in *; try contradiction; subst; simpl;
    try reflexivity.
  apply binary_round_aux_signed. lia.
Qed.

Lemma float_of_100 : float_of_int 100 = S754_finite false 7036874417766400 (-46).
Proof. vm_compute. reflexivity. Qed.

Lemma signed_nonneg (x : pyfloat) : signed false x -> float_nonneg x.
Proof.
  unfold float_nonneg.
  destruct x as [s|s| |s m e]; simpl; intros H; try contradiction; subst; reflexivity.
Qed.

(** The rates are binary64 values: 50 purchases in 150 carts give
    33.33333333333333, not 100/3, and 10^17 + 1 in 10^17 gives 100.0. *)
Example rate_value_rounds :
  rate_value 50 150 = PyFloat (S754_finite false 4691249611844266 (-47)) /\
  rate_value (10 ^ 17 + 1) (10 ^ 17) = PyFloat (float_of_int 100).
Proof. split; vm_compute; reflexivity. Qed.

(** The guarded ratio never divides: it returns [rate_value]. *)
Lemma rate_returns (num den : Z) (log : list call) :
  rate num den log = (Ok (rate_value num den), log).
Proof.
  unfold rate, rate_value, py_truediv, bind, ret.
  destruct (Z.gtb_spec den 0) as [Hpos|Hle]; [|reflexivity].
  destruct (Z.eqb_spec den 0) as [Hz|_]; [lia|]. reflexivity.
Qed.

Lemma rate_value_zero_denominator (num : Z) : rate_value num 0 = PyInt 0.
Proof. reflexivity. Qed.

(** The funnel on a store answer with a first row *)
Lemma get_conversion_funnel_first_row (self : AnalyticsService)
    (start_date end_date : datetime) (log : list call)
    (page_views add_to_carts purchases : Z) (rest : list (Z * Z * Z)) :
  funnel (clickhouse self) (date_of start_date) (date_of end_date)
  = (page_views, add_to_carts, purchases) :: rest ->
  get_conversion_funnel self start_date end_date log
  = (Ok {| Funnel.page_views := page_views;
           Funnel.add_to_carts := add_to_carts;
           Funnel.purchases := purchases;
           Funnel.view_to_cart_rate := rate_value add_to_carts page_views;
           Funnel.cart_to_purchase_rate := rate_value purchases add_to_carts;
           Funnel.overall_conversion_rate := rate_value purchases page_views |},
     log ++ [Execute_funnel (date_of start_date) (date_of end_date)]).
Proof.
  intros Hrows. unfold get_conversion_funnel, execute_funnel, bind at 1 2 3, emit, ret at 1.
  simpl. rewrite Hrows. unfold ret at 1. simpl. unfold bind.
  rewrite !rate_returns. reflexivity.
Qed.

(** C10.  [get_conversion_funnel] takes the first row of the store's
    answer without looking at its length: on the empty answer it raises
    [IndexError], and it returns a value exactly when the answer has a
    row. *)
Theorem funnel_indexes_first_row (self : AnalyticsService)
    (start_date end_date : datetime) (log : list call) :
  match funnel (clickhouse self) (date_of start_date) (date_of end_date) with
  | [] =>
      get_conversion_funnel self start_date end_date log
      = (Raise IndexError, log ++ [Execute_funnel (date_of start_date) (date_of end_date)])
  | _ :: _ =>
      exists r,
        get_conversion_funnel self start_date end_date log
        = (Ok r, log ++ [Execute_funnel (date_of start_date) (date_of end_date)])
  end.
Proof.
  destruct (funnel (clickhouse self) (date_of start_date) (date_of end_date))
    as [|[[page_views add_to_carts] purchases] rest] eqn:Hrows.
  - unfold get_conversion_funnel, execute_funnel, bind, emit, ret, raise.
    simpl. rewrite Hrows. reflexivity.
  - eexists. apply (get_conversion_funnel_first_row _ _ _ _ _ _ _ _ Hrows).
Qed.

(** The empty answer, on a concrete service *)
Example funnel_on_no_rows :
  get_conversion_funnel empty_stores (at_ 0 0) (at_ 23 59) []
  = (Raise IndexError, [Execute_funnel day_2025_01_15 day_2025_01_15]).
Proof. vm_compute. reflexivity. Qed.

Lemma rate_value_guarded (num den : Z) :
  0 <= num -> 0 <= den -> guarded_percentage num den (rate_value num den).
Proof.
  intros Hnum Hden. unfold guarded_percentage, rate_value, is_zero. split.
  - intros ->. reflexivity.
  - intros Hpos. destruct (Z.gtb_spec den 0) as [_|Hle]; [|lia].
    eexists. split; [reflexivity|]. split; [reflexivity|].
    apply signed_nonneg, (fmul_int_signed _ _ _ _ float_of_100).
    apply int_truediv_signed; assumption.
Qed.

(** C8 (amended).  For every store answer whose first row holds
    non-negative counts, each ratio field of [get_conversion_funnel] is
    the integer 0 when its denominator is 0, and otherwise the float
    numerator / denominator * 100, which is never negative and never NaN.
    No upper bound holds: the code does not clamp the value to 100. *)
Theorem funnel_rates_are_guarded (self : AnalyticsService)
    (start_date end_date : datetime) (log : list call)
    (page_views add_to_carts purchases : Z) (rest : list (Z * Z * Z)) :
  funnel (clickhouse self) (date_of start_date) (date_of end_date)
  = (page_views, add_to_carts, purchases) :: rest ->
  0 <= page_views -> 0 <= add_to_carts -> 0 <= purchases ->
  exists r log',
    get_conversion_funnel self start_date end_date log = (Ok r, log') /\
    guarded_percentage add_to_carts page_views (Funnel.view_to_cart_rate r) /\
    guarded_percentage purchases add_to_carts (Funnel.cart_to_purchase_rate r) /\
    guarded_percentage purchases page_views (Funnel.overall_conversion_rate r).
Proof.
  intros Hrows Hpv Hac Hpu.
  rewrite (get_conversion_funnel_first_row _ _ _ _ _ _ _ _ Hrows).
  eexists. eexists. split; [reflexivity|]. simpl.
  repeat split; apply rate_value_guarded; assumption.
Qed.

Lemma funnel_rates_are_guarded_witness :
  exists r log',
    get_conversion_funnel busy_carts (at_ 0 0) (at_ 23 59) [] = (Ok r, log') /\
    guarded_percentage 250 100 (Funnel.view_to_cart_rate r) /\
    guarded_percentage 40 250 (Funnel.cart_to_purchase_rate r) /\
    guarded_percentage 40 100 (Funnel.overall_conversion_rate r).
Proof.
  apply (funnel_rates_are_guarded busy_carts (at_ 0 0) (at_ 23 59) [] 100 250 40 []).
  - reflexivity.
  - lia.
  - lia.
  - lia.
Defined.

(** C8 as stated fails: with 100 page views and 250 add-to-cart events
    the funnel reports the [view_to_cart_rate] 250.0, outside [0, 100]. *)
Lemma funnel_rate_above_100 :
  exists r log',
    get_conversion_funnel busy_carts (at_ 0 0) (at_ 23 59) [] = (Ok r, log') /\
    Funnel.view_to_cart_rate r = PyFloat (float_of_int 250) /\
    SFltb (float_of_int 100) (float_of_int 250) = true /\
    ~ is_percentage (Funnel.view_to_cart_rate r).
Proof.
  eexists. eexists.
  split; [apply (get_conversion_funnel_first_row busy_carts _ _ _ 100 250 40 []); reflexivity|].
  simpl. split; [vm_compute; reflexivity|]. split; [vm_compute; reflexivity|].
  intros [_ Hle]. vm_compute in Hle. discriminate Hle.
Qed.

Section AggregateRatios.

Variable date_isoformat : date -> string.
Variable datetime_isoformat : datetime -> string.

(** [get_realtime_metrics] guards its ratio: it always returns, and the
    average is the integer 0 when no order was counted. *)
Lemma realtime_avg_guarded (self : AnalyticsService) (now : datetime) (log : list call) :
  exists r,
    get_realtime_metrics datetime_isoformat self now log
    = (Ok r, log ++ [Execute_realtime (now - 5 * MINUTE)]) /\
    Realtime.last_5min_orders r
    = sum_int (map (fun row => snd (fst row)) (realtime (clickhouse self) (now - 5 * MINUTE))) /\
    (Realtime.last_5min_orders r <= 0 -> Realtime.avg_order_value r = PyInt 0).
Proof.
  unfold get_realtime_metrics, execute_realtime, bind at 1 2, emit, ret at 1. simpl.
  set (results := realtime (clickhouse self) (now - 5 * MINUTE)).
  set (total_orders := sum_int (map (fun row => snd (fst row)) results)).
  unfold bind, py_truediv, ret.
  destruct (Z.gtb_spec total_orders 0) as [Hpos|Hle].
  - destruct (Z.eqb_spec total_orders 0) as [Hz|_]; [lia|].
    eexists. split; [reflexivity|]. simpl. split; [reflexivity|]. lia.
  - eexists. split; [reflexivity|]. simpl. split; reflexivity.
Qed.

End AggregateRatios.

(* ===================================================================== *)
(** ** Further properties of the cutover *)
(* ===================================================================== *)

Lemma hour_floor_of_window (t c : datetime) :
  aligned HOUR c -> c <= t < c + HOUR ->
  replace_minute0_second0_microsecond0 t = c.
Proof.
  unfold aligned, replace_minute0_second0_microsecond0. intros Hal Hwin.
  pose proof HOUR_pos as Hp.
  pose proof (Z.div_mod c HOUR ltac:(lia)) as Hc. rewrite Hal in Hc.
  assert (Hr : t - c = t mod HOUR).
  { apply Z.mod_unique with (q := c / HOUR); lia. }
  lia.
Qed.

(** An instant lies in the hour after at most one hour boundary. *)
Lemma window_unique (end_time a b : datetime) :
  aligned HOUR a -> a < end_time -> end_time <= a + HOUR ->
  aligned HOUR b -> b < end_time -> end_time <= b + HOUR ->
  a = b.
Proof.
  intros Ha Ha1 Ha2 Hb Hb1 Hb2.
  destruct (Z.lt_trichotomy a b) as [Hlt|[Heq|Hgt]]; [|exact Heq|].
  - pose proof (aligned_gap a b Ha Hb Hlt). lia.
  - pose proof (aligned_gap b a Hb Ha Hgt). lia.
Qed.

(** X1.  On a range with [start_time <= end_time] the cutover does not
    depend on [start_time]: it is the hour of the last microsecond before
    [end_time]. *)
Theorem batch_latest_closed_form (start_time end_time : datetime) :
  start_time <= end_time ->
  batch_latest start_time end_time
  = Some (replace_minute0_second0_microsecond0 (end_time - 1)).
Proof.
  intros Hrange.
  destruct (batch_latest_window _ _ Hrange) as (c & Hc & Hal & Hlt & Hle).
  rewrite Hc. f_equal. symmetry. apply hour_floor_of_window; [exact Hal|lia].
Qed.

Lemma batch_latest_closed_form_witness :
  batch_latest (at_ 13 30) (at_ 15 0)
  = Some (replace_minute0_second0_microsecond0 (at_ 15 0 - 1)).
Proof.
  apply (batch_latest_closed_form (at_ 13 30) (at_ 15 0)). clock.
Defined.

(** The cutover of a range whose end is not after the hour of its start *)
Lemma batch_latest_reversed (start_time end_time : datetime) :
  end_time <= replace_minute0_second0_microsecond0 start_time ->
  batch_latest start_time end_time
  = Some (replace_minute0_second0_microsecond0 start_time - HOUR).
Proof.
  intros Hrev. unfold batch_latest.
  destruct (advance_batch_latest_spec _ _ _ (hours_fuel_enough start_time end_time))
    as (r & Hr & _ & _ & Hstay & _).
  rewrite Hr, (Hstay Hrev). reflexivity.
Qed.

Lemma hour_floor_le (t : datetime) : replace_minute0_second0_microsecond0 t <= t.
Proof.
  unfold replace_minute0_second0_microsecond0.
  pose proof (Z.mod_pos_bound t HOUR HOUR_pos). lia.
Qed.

(** The method after its first step *)
Lemma get_order_count_by_minute_from_cutover (py_int : string -> option Z)
    (self : AnalyticsService) (start_time end_time c : datetime) (log : list call) :
  batch_latest start_time end_time = Some c ->
  get_order_count_by_minute py_int self start_time end_time log
  = (let* results := batch_layer self start_time end_time c [] in
     let* results := speed_layer py_int self end_time c results in
     ret results) log.
Proof.
  intros Hc. unfold get_order_count_by_minute, bind at 1. rewrite Hc. reflexivity.
Qed.

(** X2.  A reversed range whose end lies an hour or more before the hour
    of its start is answered with the empty series, without an error and
    without any store call. *)
Theorem reversed_range_is_empty (py_int : string -> option Z)
    (self : AnalyticsService) (start_time end_time : datetime) (log : list call) :
  end_time <= replace_minute0_second0_microsecond0 start_time - HOUR ->
  get_order_count_by_minute py_int self start_time end_time log = (Ok [], log).
Proof.
  intros Hrev. pose proof HOUR_pos as Hp. pose proof (hour_floor_le start_time) as Hfl.
  rewrite (get_order_count_by_minute_from_cutover py_int self _ _ _ log
             (batch_latest_reversed start_time end_time ltac:(lia))).
  unfold batch_layer, speed_layer, bind, ret.
  destruct (Z.ltb_spec start_time (replace_minute0_second0_microsecond0 start_time - HOUR));
    [lia|].
  destruct (Z.gtb_spec end_time (replace_minute0_second0_microsecond0 start_time - HOUR));
    [lia|].
  reflexivity.
Qed.

Lemma reversed_range_is_empty_witness :
  get_order_count_by_minute int_of_decimal scenario_b (at_ 15 30) (at_ 13 10) []
  = (Ok [], []).
Proof.
  apply (reversed_range_is_empty int_of_decimal scenario_b (at_ 15 30) (at_ 13 10) []).
  clock.
Defined.

(** X3.  Within the hour that holds the end of the range the start is
    ignored: a call with [cutover <= start_time <= end_time] behaves,
    result, error and calls alike, as the call that starts at the
    cutover. *)
Theorem start_within_last_hour_is_ignored (py_int : string -> option Z)
    (self : AnalyticsService) (start_time end_time c : datetime) (log : list call) :
  batch_latest start_time end_time = Some c ->
  c <= start_time <= end_time ->
  get_order_count_by_minute py_int self start_time end_time log
  = get_order_count_by_minute py_int self c end_time log.
Proof.
  intros Hc [Hlow Hrange].
  assert (Hc' : batch_latest c end_time = Some c).
  { destruct (batch_latest_window _ _ Hrange) as (c1 & Hc1 & Hal1 & Hlt1 & Hle1).
    rewrite Hc in Hc1. injection Hc1 as <-.
    destruct (batch_latest_window c end_time ltac:(lia)) as (c2 & Hc2 & Hal2 & Hlt2 & Hle2).
    rewrite Hc2. f_equal. apply (window_unique end_time); assumption. }
  rewrite (get_order_count_by_minute_from_cutover py_int self _ _ c log Hc).
  rewrite (get_order_count_by_minute_from_cutover py_int self _ _ c log Hc').
  unfold batch_layer.
  destruct (Z.ltb_spec start_time c); [lia|].
  destruct (Z.ltb_spec c c); [lia|]. reflexivity.
Qed.

Lemma start_within_last_hour_is_ignored_witness :
  get_order_count_by_minute int_of_decimal scenario_b (at_ 14 3) (at_ 14 5) []
  = get_order_count_by_minute int_of_decimal scenario_b (at_ 14 0) (at_ 14 5) [].
Proof.
  apply (start_within_last_hour_is_ignored int_of_decimal scenario_b
           (at_ 14 3) (at_ 14 5) (at_ 14 0) []).
  - vm_compute. reflexivity.
  - split; clock.
Defined.

(* ===================================================================== *)
(** ** Outcome and call log of get_order_count_by_minute *)
(* ===================================================================== *)

Lemma bind_ret {A} (m : M A) (log : list call) :
  (let* a := m in ret a) log = m log.
Proof. unfold bind, ret. destruct (m log) as [[a|e|] log']; reflexivity. Qed.

Lemma bind_ok {A B} (m : M A) (f : A -> M B) (log log' : list call) (a : A) :
  m log = (Ok a, log') -> (let* x := m in f x) log = f a log'.
Proof. intros Hm. unfold bind. rewrite Hm. reflexivity. Qed.

(** The batch layer never fails: it hands on the rows of its one query. *)
Lemma batch_layer_returns (self : AnalyticsService)
    (start_time end_time c : datetime) (log : list call) :
  batch_layer self start_time end_time c [] log
  = (Ok (batch_points self start_time end_time c),
     log ++ batch_calls start_time end_time c).
Proof.
  unfold batch_layer, batch_points, batch_calls.
  destruct (start_time <? c).
  - reflexivity.
  - unfold ret. rewrite app_nil_r. reflexivity.
Qed.

(** The method as the traversal of its buckets, started on the batch rows *)
Lemma get_order_count_by_minute_is_fold (py_int : string -> option Z)
    (self : AnalyticsService) (start_time end_time c : datetime) (log : list call) :
  batch_latest start_time end_time = Some c ->
  get_order_count_by_minute py_int self start_time end_time log
  = speed_fold py_int self (buckets c end_time)
      (batch_points self start_time end_time c)
      (log ++ batch_calls start_time end_time c).
Proof.
  intros Hc. rewrite (get_order_count_by_minute_from_cutover py_int self _ _ c log Hc).
  rewrite (bind_ok _ _ _ _ _ (batch_layer_returns self start_time end_time c log)).
  rewrite bind_ret. apply speed_layer_is_fold.
Qed.

(** The traversal stops at the first bucket whose value is unreadable. *)
Lemma speed_fold_stops (py_int : string -> option Z) (self : AnalyticsService)
    (before after : list datetime) (t : datetime) :
  forallb (bucket_readable py_int self) before = true ->
  bucket_readable py_int self t = false ->
  forall results log,
    speed_fold py_int self (before ++ t :: after) results log
    = (Raise ValueError,
       log ++ flat_map (bucket_calls self) before ++ [Redis_get (order_count_key t)]).
Proof.
  intros Hbefore Ht.
  induction before as [|b before IH]; simpl; intros results log; unfold bind.
  - rewrite (speed_bucket_unreadable py_int self t results log Ht). reflexivity.
  - simpl in Hbefore. apply andb_prop in Hbefore as [Hb Hbefore].
    rewrite (speed_bucket_readable py_int self b results log Hb).
    rewrite (IH Hbefore), <- !app_assoc. reflexivity.
Qed.

(** X4.  A value in the speed store that is not empty and that [int]
    rejects aborts the call with [ValueError]: when the buckets before
    [t] are readable and the value of [t] is not, the call has made the
    batch query (if any), the calls of the buckets before [t] and the
    lookup of [t], makes no call for a later bucket, and returns no
    series. *)
Theorem value_error_at_first_bad_bucket (py_int : string -> option Z)
    (self : AnalyticsService) (start_time end_time c t : datetime)
    (before after : list datetime) (log : list call) :
  batch_latest start_time end_time = Some c ->
  buckets c end_time = before ++ t :: after ->
  forallb (bucket_readable py_int self) before = true ->
  bucket_readable py_int self t = false ->
  get_order_count_by_minute py_int self start_time end_time log
  = (Raise ValueError,
     log ++ batch_calls start_time end_time c
         ++ flat_map (bucket_calls self) before
         ++ [Redis_get (order_count_key t)]).
Proof.
  intros Hc Hsplit Hbefore Ht.
  rewrite (get_order_count_by_minute_is_fold py_int self _ _ c log Hc), Hsplit.
  rewrite (speed_fold_stops py_int self before after t Hbefore Ht), <- !app_assoc.
  reflexivity.
Qed.

Lemma value_error_at_first_bad_bucket_witness :
  get_order_count_by_minute int_of_decimal garbled (at_ 14 0) (at_ 14 5) []
  = (Raise ValueError,
     [] ++ batch_calls (at_ 14 0) (at_ 14 5) (at_ 14 0)
        ++ flat_map (bucket_calls garbled) [at_ 14 0]
        ++ [Redis_get (order_count_key (at_ 14 1))]).
Proof.
  apply (value_error_at_first_bad_bucket int_of_decimal garbled
           (at_ 14 0) (at_ 14 5) (at_ 14 0) (at_ 14 1)
           [at_ 14 0] [at_ 14 2; at_ 14 3; at_ 14 4] []).
  - vm_compute. reflexivity.
  - vm_compute. reflexivity.
  - vm_compute. reflexivity.
  - vm_compute. reflexivity.
Defined.

(** The garbled value at 14:01 stops the call after two lookups. *)
Example garbled_raises :
  get_order_count_by_minute int_of_decimal garbled (at_ 14 0) (at_ 14 5) []
  = (Raise ValueError,
     [Redis_get (order_count_key (at_ 14 0)); Redis_get (order_count_key (at_ 14 1))]).
Proof. vm_compute. reflexivity. Qed.

Lemma buckets_length (current end_time : datetime) :
  length (buckets current end_time)
  = Z.to_nat ((end_time - current + MINUTE - 1) / MINUTE).
Proof. unfold buckets. rewrite List.length_map, List.length_seq. reflexivity. Qed.

(** The last hour has between one and sixty buckets. *)
Lemma buckets_of_last_hour (c end_time : datetime) :
  c < end_time -> end_time <= c + HOUR ->
  (1 <= length (buckets c end_time) <= 60)%nat.
Proof.
  intros Hlt Hle. rewrite buckets_length.
  pose proof MINUTE_pos as Hp.
  assert (Hlow : 1 <= (end_time - c + MINUTE - 1) / MINUTE).
  { apply Z.div_le_lower_bound; lia. }
  assert (Hhigh : (end_time - c + MINUTE - 1) / MINUTE < 61).
  { apply Z.div_lt_upper_bound; [lia|]. unfold HOUR in Hle. lia. }
  lia.
Qed.

Lemma redis_keys_app (l1 l2 : list call) :
  redis_keys (l1 ++ l2) = redis_keys l1 ++ redis_keys l2.
Proof. unfold redis_keys. apply flat_map_app. Qed.

Lemma redis_keys_batch (start_time end_time c : datetime) :
  redis_keys (batch_calls start_time end_time c) = [].
Proof. unfold batch_calls. destruct (start_time <? c); reflexivity. Qed.

Lemma redis_keys_speed (self : AnalyticsService) (bs : list datetime) :
  redis_keys (flat_map (bucket_calls self) bs) = map order_count_key bs.
Proof.
  induction bs as [|t bs IH]; [reflexivity|].
  change (flat_map (bucket_calls self) (t :: bs))
    with (bucket_calls self t ++ flat_map (bucket_calls self) bs).
  rewrite redis_keys_app, IH.
  unfold bucket_calls. destruct (speed_miss self t); reflexivity.
Qed.

(** X5.  On a range with [start_time <= end_time] the call looks up, in
    ascending order and once each, the keys of the buckets from the cutover
    up to [end_time] and no other key: at least one lookup and at most
    sixty, however long the range is. *)
Theorem redis_lookups_are_the_last_hour (py_int : string -> option Z)
    (self : AnalyticsService) (start_time end_time c : datetime) :
  start_time <= end_time ->
  batch_latest start_time end_time = Some c ->
  forallb (bucket_readable py_int self) (buckets c end_time) = true ->
  exists results log,
    get_order_count_by_minute py_int self start_time end_time [] = (Ok results, log) /\
    redis_keys log = map order_count_key (buckets c end_time) /\
    (1 <= length (redis_keys log) <= 60)%nat.
Proof.
  intros Hrange Hc Hall.
  destruct (batch_latest_window _ _ Hrange) as (c' & Hc' & _ & Hlt & Hle).
  rewrite Hc in Hc'. injection Hc' as <-.
  rewrite (get_order_count_by_minute_readable py_int self _ _ c [] Hc Hall).
  eexists. eexists. split; [reflexivity|].
  assert (Hkeys : redis_keys ([] ++ batch_calls start_time end_time c
                              ++ speed_calls self end_time c)
                  = map order_count_key (buckets c end_time)).
  { rewrite !redis_keys_app, redis_keys_batch. exact (redis_keys_speed self _). }
  split; [exact Hkeys|].
  rewrite Hkeys, List.length_map. apply buckets_of_last_hour; assumption.
Qed.

Lemma redis_lookups_are_the_last_hour_witness :
  exists results log,
    get_order_count_by_minute int_of_decimal two_layers (at_ 9 0) (at_ 14 5) []
    = (Ok results, log) /\
    redis_keys log = map order_count_key (buckets (at_ 14 0) (at_ 14 5)) /\
    (1 <= length (redis_keys log) <= 60)%nat.
Proof.
  apply (redis_lookups_are_the_last_hour int_of_decimal two_layers
           (at_ 9 0) (at_ 14 5) (at_ 14 0)).
  - clock.
  - vm_compute. reflexivity.
  - vm_compute. reflexivity.
Defined.

(** X6.  On a range with [start_time <= end_time] the batch store gets at
    most one grouped query, as the first call, and its window always ends
    at the cutover, strictly before [end_time]; every later call belongs
    to a bucket of the speed layer. *)
Theorem batch_query_ends_at_cutover (py_int : string -> option Z)
    (self : AnalyticsService) (start_time end_time c : datetime) :
  start_time <= end_time ->
  batch_latest start_time end_time = Some c ->
  forallb (bucket_readable py_int self) (buckets c end_time) = true ->
  exists results,
    get_order_count_by_minute py_int self start_time end_time []
    = (Ok results,
       (if start_time <? c then [Execute_orders_by_minute start_time c] else [])
       ++ flat_map (bucket_calls self) (buckets c end_time)) /\
    c < end_time.
Proof.
  intros Hrange Hc Hall.
  destruct (batch_latest_window _ _ Hrange) as (c' & Hc' & _ & Hlt & _).
  rewrite Hc in Hc'. injection Hc' as <-.
  rewrite (get_order_count_by_minute_readable py_int self _ _ c [] Hc Hall).
  eexists. split; [|exact Hlt].
  unfold batch_calls, speed_calls. rewrite (Z.min_r end_time c) by lia. reflexivity.
Qed.

Lemma batch_query_ends_at_cutover_witness :
  exists results,
    get_order_count_by_minute int_of_decimal two_layers (at_ 13 30) (at_ 14 5) []
    = (Ok results,
       (if at_ 13 30 <? at_ 14 0
        then [Execute_orders_by_minute (at_ 13 30) (at_ 14 0)] else [])
       ++ flat_map (bucket_calls two_layers) (buckets (at_ 14 0) (at_ 14 5))) /\
    at_ 14 0 < at_ 14 5.
Proof.
  apply (batch_query_ends_at_cutover int_of_decimal two_layers
           (at_ 13 30) (at_ 14 5) (at_ 14 0)).
  - clock.
  - vm_compute. reflexivity.
  - vm_compute. reflexivity.
Defined.

Lemma fallback_windows_app (l1 l2 : list call) :
  fallback_windows (l1 ++ l2) = fallback_windows l1 ++ fallback_windows l2.
Proof. unfold fallback_windows. apply flat_map_app. Qed.

Lemma fallback_windows_batch (start_time end_time c : datetime) :
  fallback_windows (batch_calls start_time end_time c) = [].
Proof. unfold batch_calls. destruct (start_time <? c); reflexivity. Qed.

Lemma fallback_windows_speed (self : AnalyticsService) (bs : list datetime) :
  fallback_windows (flat_map (bucket_calls self) bs)
  = map (fun t => (t, t + MINUTE)) (List.filter (speed_miss self) bs).
Proof.
  induction bs as [|t bs IH]; [reflexivity|].
  change (flat_map (bucket_calls self) (t :: bs))
    with (bucket_calls self t ++ flat_map (bucket_calls self) bs).
  rewrite fallback_windows_app, IH.
  unfold bucket_calls. cbn [List.filter]. destruct (speed_miss self t); reflexivity.
Qed.

(** X7.  The fallback queries of a call are, in order, the one-minute
    windows of exactly those buckets for which the speed store holds no
    value: a miss costs one batch query and a hit none. *)
Theorem fallback_queries_are_the_misses (py_int : string -> option Z)
    (self : AnalyticsService) (start_time end_time c : datetime) :
  batch_latest start_time end_time = Some c ->
  forallb (bucket_readable py_int self) (buckets c end_time) = true ->
  exists results log,
    get_order_count_by_minute py_int self start_time end_time [] = (Ok results, log) /\
    fallback_windows log
    = map (fun t => (t, t + MINUTE))
          (List.filter (speed_miss self) (buckets c end_time)).
Proof.
  intros Hc Hall.
  rewrite (get_order_count_by_minute_readable py_int self _ _ c [] Hc Hall).
  eexists. eexists. split; [reflexivity|].
  rewrite !fallback_windows_app, fallback_windows_batch.
  exact (fallback_windows_speed self _).
Qed.

Lemma fallback_queries_are_the_misses_witness :
  exists results log,
    get_order_count_by_minute int_of_decimal scenario_b (at_ 14 0) (at_ 14 5) []
    = (Ok results, log) /\
    fallback_windows log
    = map (fun t => (t, t + MINUTE))
          (List.filter (speed_miss scenario_b) (buckets (at_ 14 0) (at_ 14 5))).
Proof.
  apply (fallback_queries_are_the_misses int_of_decimal scenario_b
           (at_ 14 0) (at_ 14 5) (at_ 14 0)).
  - vm_compute. reflexivity.
  - vm_compute. reflexivity.
Defined.

Lemma bucket_calls_length (self : AnalyticsService) (bs : list datetime) :
  (length (flat_map (bucket_calls self) bs) <= 2 * length bs)%nat.
Proof.
  induction bs as [|t bs IH]; simpl; [lia|].
  destruct (speed_miss self t); simpl; lia.
Qed.

(** X8.  On a range with [start_time <= end_time] a call that returns has
    made at most 121 store calls: one grouped batch query, and a lookup
    plus at most one fallback query for each of at most sixty buckets. *)
Theorem at_most_121_store_calls (py_int : string -> option Z)
    (self : AnalyticsService) (start_time end_time : datetime)
    (results : list (datetime * Z)) (log : list call) :
  start_time <= end_time ->
  get_order_count_by_minute py_int self start_time end_time [] = (Ok results, log) ->
  (length log <= 121)%nat.
Proof.
  intros Hrange Hrun.
  destruct (get_order_count_by_minute_returns py_int self _ _ _ _ _ Hrun)
    as (c & Hc & Hall).
  destruct (batch_latest_window _ _ Hrange) as (c' & Hc' & _ & Hlt & Hle).
  rewrite Hc in Hc'. injection Hc' as <-.
  rewrite (get_order_count_by_minute_readable py_int self _ _ c [] Hc Hall) in Hrun.
  injection Hrun as _ <-.
  pose proof (bucket_calls_length self (buckets c end_time)) as Hcalls.
  pose proof (buckets_of_last_hour c end_time Hlt Hle) as Hbuckets.
  simpl. rewrite List.length_app. unfold speed_calls, batch_calls.
  destruct (start_time <? c); simpl; lia.
Qed.

Lemma at_most_121_store_calls_witness :
  (length (snd (get_order_count_by_minute int_of_decimal two_layers
                  (at_ 13 30) (at_ 14 5) [])) <= 121)%nat.
Proof.
  apply (at_most_121_store_calls int_of_decimal two_layers (at_ 13 30) (at_ 14 5)
           (batch_points two_layers (at_ 13 30) (at_ 14 5) (at_ 14 0)
            ++ speed_points int_of_decimal two_layers (at_ 14 5) (at_ 14 0))).
  - clock.
  - vm_compute. reflexivity.
Defined.

(** X9.  A bucket for which the speed store holds an integer literal is
    reported with that integer, and no fallback query is made for it. *)
Theorem speed_hit_needs_no_batch_query (py_int : string -> option Z)
    (self : AnalyticsService) (start_time end_time c t : datetime)
    (a : Ascii.ascii) (s : string) (n : Z) :
  batch_latest start_time end_time = Some c ->
  forallb (bucket_readable py_int self) (buckets c end_time) = true ->
  In t (buckets c end_time) ->
  redis self !! order_count_key t = Some (String a s) ->
  py_int (String a s) = Some n ->
  exists results log,
    get_order_count_by_minute py_int self start_time end_time [] = (Ok results, log) /\
    In (t, n) results /\
    ~ In (Execute_bucket_count t (t + MINUTE)) log.
Proof.
  intros Hc Hall Ht Hget Hint.
  rewrite (get_order_count_by_minute_readable py_int self _ _ c [] Hc Hall).
  eexists. eexists. split; [reflexivity|]. split.
  - apply in_or_app. right. unfold speed_points. apply in_flat_map.
    exists t. split; [exact Ht|].
    unfold bucket_points. rewrite Hget, Hint. left. reflexivity.
  - simpl. intros Hin. apply in_app_or in Hin as [Hin|Hin].
    + unfold batch_calls in Hin. destruct (start_time <? c); simpl in Hin;
        [destruct Hin as [Hin|[]]; discriminate Hin|contradiction].
    + unfold speed_calls in Hin. apply in_flat_map in Hin as (t' & _ & Hin).
      unfold bucket_calls in Hin. destruct Hin as [Hin|Hin]; [discriminate Hin|].
      destruct (speed_miss self t') eqn:Hmiss; [|contradiction].
      destruct Hin as [Hin|[]]. injection Hin as -> _.
      unfold speed_miss in Hmiss. rewrite Hget in Hmiss. discriminate Hmiss.
Qed.

Lemma speed_hit_needs_no_batch_query_witness :
  exists results log,
    get_order_count_by_minute int_of_decimal scenario_b (at_ 14 0) (at_ 14 5) []
    = (Ok results, log) /\
    In (at_ 14 3, 6) results /\
    ~ In (Execute_bucket_count (at_ 14 3) (at_ 14 3 + MINUTE)) log.
Proof.
  apply (speed_hit_needs_no_batch_query int_of_decimal scenario_b
           (at_ 14 0) (at_ 14 5) (at_ 14 0) (at_ 14 3)
           (Ascii.Ascii false true true false true true false false) EmptyString 6).
  - vm_compute. reflexivity.
  - vm_compute. reflexivity.
  - vm_compute. right. right. right. left. reflexivity.
  - vm_compute. reflexivity.
  - vm_compute. reflexivity.
Defined.

(* ===================================================================== *)
(** ** Buckets, timestamps and keys *)
(* ===================================================================== *)

Lemma hour_is_whole_minute (c : datetime) : aligned HOUR c -> whole_minute c.
Proof.
  unfold aligned, whole_minute. intros Hal.
  pose proof (Z.div_mod c HOUR ltac:(pose proof HOUR_pos; lia)) as Hc.
  rewrite Hal in Hc. rewrite Hc. unfold HOUR.
  replace (60 * MINUTE * (c / (60 * MINUTE)) + 0) with ((60 * (c / (60 * MINUTE))) * MINUTE) by lia.
  apply Z.mod_mul. pose proof MINUTE_pos. lia.
Qed.

Lemma buckets_whole_minutes (c end_time t : datetime) :
  whole_minute c -> In t (buckets c end_time) -> whole_minute t.
Proof.
  unfold whole_minute. intros Hc Ht.
  apply buckets_bounds in Ht as (_ & k & _ & ->).
  rewrite Z.mod_add by (pose proof MINUTE_pos; lia). exact Hc.
Qed.

(** X10.  Every point of the speed-layer part of the series carries a
    whole minute as its timestamp, at or after the cutover and strictly
    before [end_time], whether or not [start_time] and [end_time] are
    whole minutes themselves. *)
Theorem speed_points_are_whole_minutes (py_int : string -> option Z)
    (self : AnalyticsService) (start_time end_time c : datetime) :
  batch_latest start_time end_time = Some c ->
  forallb (bucket_readable py_int self) (buckets c end_time) = true ->
  exists log,
    get_order_count_by_minute py_int self start_time end_time []
    = (Ok (batch_points self start_time end_time c ++ speed_points py_int self end_time c),
       log) /\
    Forall (fun t => whole_minute t /\ c <= t < end_time)
           (timestamps (speed_points py_int self end_time c)).
Proof.
  intros Hc Hall.
  rewrite (get_order_count_by_minute_readable py_int self _ _ c [] Hc Hall).
  eexists. split; [reflexivity|].
  destruct (batch_latest_total start_time end_time) as (c' & Hc' & Hal).
  rewrite Hc in Hc'. injection Hc' as <-.
  apply List.Forall_forall. intros t Ht. unfold timestamps in Ht.
  apply in_map_iff in Ht as (p & <- & Hp). apply speed_points_in in Hp.
  split.
  - apply (buckets_whole_minutes c end_time); [apply hour_is_whole_minute; exact Hal|exact Hp].
  - apply buckets_bounds in Hp as [Hb _]. exact Hb.
Qed.

Lemma speed_points_are_whole_minutes_witness :
  exists log,
    get_order_count_by_minute int_of_decimal scenario_b
      (at_ 14 0 + 17 * SECOND) (at_ 14 4 + 30 * SECOND) []
    = (Ok (batch_points scenario_b (at_ 14 0 + 17 * SECOND) (at_ 14 4 + 30 * SECOND) (at_ 14 0)
           ++ speed_points int_of_decimal scenario_b (at_ 14 4 + 30 * SECOND) (at_ 14 0)),
       log) /\
    Forall (fun t => whole_minute t /\ at_ 14 0 <= t < at_ 14 4 + 30 * SECOND)
           (timestamps (speed_points int_of_decimal scenario_b
                          (at_ 14 4 + 30 * SECOND) (at_ 14 0))).
Proof.
  apply (speed_points_are_whole_minutes int_of_decimal scenario_b
           (at_ 14 0 + 17 * SECOND) (at_ 14 4 + 30 * SECOND) (at_ 14 0)).
  - vm_compute. reflexivity.
  - vm_compute. reflexivity.
Defined.

Lemma speed_points_when_counted (py_int : string -> option Z) (self : AnalyticsService)
    (bs : list datetime) :
  (forall s e, bucket_count (clickhouse self) s e <> []) ->
  forallb (bucket_readable py_int self) bs = true ->
  timestamps (flat_map (bucket_points py_int self) bs) = bs.
Proof.
  intros Hrow. unfold timestamps.
  induction bs as [|t bs IH]; simpl; intros Hall; [reflexivity|].
  apply andb_prop in Hall as [Ht Hbs].
  rewrite map_app, (IH Hbs).
  unfold bucket_points, bucket_readable in *.
  specialize (Hrow t (t + MINUTE)).
  destruct (redis self !! order_count_key t) as [[|a s]|];
    try destruct (py_int (String a s));
    try destruct (bucket_count (clickhouse self) t (t + MINUTE));
    try discriminate Ht; try contradiction; reflexivity.
Qed.

(** X12.  If the single-bucket count of the batch store always answers a
    row, as an aggregate without [GROUP BY] does, the speed-layer part of
    the series has no gap: it holds exactly one point for every bucket
    from the cutover to [end_time]. *)
Theorem no_gap_when_fallback_answers (py_int : string -> option Z)
    (self : AnalyticsService) (start_time end_time c : datetime) :
  batch_latest start_time end_time = Some c ->
  forallb (bucket_readable py_int self) (buckets c end_time) = true ->
  (forall s e, bucket_count (clickhouse self) s e <> []) ->
  exists log,
    get_order_count_by_minute py_int self start_time end_time []
    = (Ok (batch_points self start_time end_time c ++ speed_points py_int self end_time c),
       log) /\
    timestamps (speed_points py_int self end_time c) = buckets c end_time.
Proof.
  intros Hc Hall Hrow.
  rewrite (get_order_count_by_minute_readable py_int self _ _ c [] Hc Hall).
  eexists. split; [reflexivity|].
  apply speed_points_when_counted; assumption.
Qed.

Lemma no_gap_when_fallback_answers_witness :
  exists log,
    get_order_count_by_minute int_of_decimal counting (at_ 14 0) (at_ 14 10) []
    = (Ok (batch_points counting (at_ 14 0) (at_ 14 10) (at_ 14 0)
           ++ speed_points int_of_decimal counting (at_ 14 10) (at_ 14 0)),
       log) /\
    timestamps (speed_points int_of_decimal counting (at_ 14 10) (at_ 14 0))
    = buckets (at_ 14 0) (at_ 14 10).
Proof.
  apply (no_gap_when_fallback_answers int_of_decimal counting
           (at_ 14 0) (at_ 14 10) (at_ 14 0)).
  - vm_compute. reflexivity.
  - vm_compute. reflexivity.
  - intros s e. simpl. destruct (s =? at_ 14 2); discriminate.
Defined.

(* ===================================================================== *)
(** ** Further properties of the aggregate queries *)
(* ===================================================================== *)

Section AggregateProperties.

Variable date_isoformat : date -> string.
Variable datetime_isoformat : datetime -> string.

(** X13.  With no order in the window, [get_realtime_metrics] reports the
    integer 0 for the orders, for the revenue and for the average, and an
    empty per-minute list, after its one query from five minutes before
    [now]. *)
Theorem realtime_without_orders (self : AnalyticsService) (now : datetime)
    (log : list call) :
  realtime (clickhouse self) (now - 5 * MINUTE) = [] ->
  get_realtime_metrics datetime_isoformat self now log
  = (Ok {| Realtime.last_5min_orders := 0;
           Realtime.last_5min_revenue := PyInt 0;
           Realtime.avg_order_value := PyInt 0;
           Realtime.orders_per_minute := [] |},
     log ++ [Execute_realtime (now - 5 * MINUTE)]).
Proof.
  intros Hrows.
  unfold get_realtime_metrics, execute_realtime, bind, emit, ret. simpl.
  rewrite Hrows. reflexivity.
Qed.

(** X14.  [get_realtime_metrics] never raises, whatever the store
    answers, and its totals agree with its per-minute list:
    [last_5min_orders] is the sum of the listed counts,
    [last_5min_revenue] the sum of the listed revenues, and the list has
    one entry per row of the answer. *)
Theorem realtime_totals_match_minutes (self : AnalyticsService) (now : datetime)
    (log : list call) :
  exists r,
    get_realtime_metrics datetime_isoformat self now log
    = (Ok r, log ++ [Execute_realtime (now - 5 * MINUTE)]) /\
    Realtime.last_5min_orders r
    = sum_int (map Realtime.count (Realtime.orders_per_minute r)) /\
    Realtime.last_5min_revenue r
    = sum_num (map (fun i => PyFloat (Realtime.revenue i)) (Realtime.orders_per_minute r)) /\
    length (Realtime.orders_per_minute r)
    = length (realtime (clickhouse self) (now - 5 * MINUTE)).
Proof.
  unfold get_realtime_metrics, execute_realtime, bind at 1 2, emit, ret at 1. simpl.
  set (results := realtime (clickhouse self) (now - 5 * MINUTE)).
  set (total_orders := sum_int (map (fun row => snd (fst row)) results)).
  assert (Havg : exists avg,
    (if total_orders >? 0
     then py_truediv (sum_num (map (fun row => PyFloat (py_float (snd row))) results))
            total_orders
     else ret (PyInt 0)) (log ++ [Execute_realtime (now - 5 * MINUTE)])
    = (Ok avg, log ++ [Execute_realtime (now - 5 * MINUTE)])).
  { unfold py_truediv, ret. destruct (Z.gtb_spec total_orders 0) as [Hpos|Hle].
    - destruct (Z.eqb_spec total_orders 0) as [Hz|_]; [lia|]. eexists. reflexivity.
    - eexists. reflexivity. }
  destruct Havg as [avg Havg]. unfold bind. rewrite Havg. unfold ret.
  eexists. split; [reflexivity|]. simpl.
  rewrite !map_map, List.length_map. simpl. repeat split; reflexivity.
Qed.

End AggregateProperties.

(** The instances below print dates and instants as plain numbers. *)
Lemma realtime_without_orders_witness :
  get_realtime_metrics str_of_int empty_stores (at_ 14 30) []
  = (Ok {| Realtime.last_5min_orders := 0;
           Realtime.last_5min_revenue := PyInt 0;
           Realtime.avg_order_value := PyInt 0;
           Realtime.orders_per_minute := [] |},
     [] ++ [Execute_realtime (at_ 14 30 - 5 * MINUTE)]).
Proof.
  apply (realtime_without_orders str_of_int empty_stores (at_ 14 30) []). reflexivity.
Defined.


